(** * Job lifecycle of the Financial Document Analyzer

    A shallow embedding of the job-record store ([crud.py], [models.py]),
    the background executor ([celery_app.py]), the analysis wrapper and the
    HTTP handlers ([main.py], [schemas.py]), the document tools
    ([tools.py]) and the store's test ([test_db_flow.py]), followed by the
    properties of the job lifecycle.

    Conventions of the embedding:
    - the database is a finite map from primary key to row; a [commit]
      writes the row and appends it to the trace of observable effects;
    - Python exceptions are values of [exc]; a computation is a function
      from the world to an outcome and a new world ([M]);
    - [datetime] values are integers, the microseconds since
      [datetime.min]; [datetime.utcnow()] reads the world's clock, and date
      arithmetic raises outside the range of [datetime];
    - a [string] holds the UTF-8 bytes of a Python [str];
    - the external collaborators (the crew's [kickoff], [json.loads],
      [json.dumps], [SessionLocal()], the file system and the broker) are
      the fields of [Env];
    - [logger] calls change nothing that is modelled and are left out;
    - the store's own operations (query, commit, refresh) do not fail,
      except that inserting a second row with the same primary key does. *)

From Stdlib Require Import ZArith String Ascii List Bool Lia.
From stdpp Require Import base option list strings pretty gmap fin_maps.

Local Open Scope Z_scope.
Local Open Scope string_scope.

(** ** Python values *)

(** JSON-shaped Python data as [json.loads] returns it; [JNull] is
    Python's [None], [JObj] a [dict] in insertion order. *)
#[warnings="-register-all"]
Inductive json : Type :=
| JNull
| JBool (b : bool)
| JNum (n : Z)
| JStr (s : string)
| JArr (items : list json)
| JObj (fields : list (string * json)).

(** The exceptions the code tells apart: [fastapi.HTTPException],
    [json.JSONDecodeError], and any other subclass of [Exception]. *)
Inductive exc : Type :=
| HTTPException (status_code : Z) (detail : string)
| JSONDecodeError (msg : string)
| Exception (msg : string).

(** [str(e)]. For [HTTPException] this is Starlette's
    [f"{status_code}: {detail}"]. *)
Definition str_exc (e : exc) : string :=
  match e with
  | HTTPException c d => pretty c +:+ ": " +:+ d
  | JSONDecodeError m => m
  | Exception m => m
  end.

Inductive outcome (A : Type) : Type :=
| Ok (a : A)
| Raise (e : exc).
Arguments Ok {A} a.
Arguments Raise {A} e.

(** Python truthiness of an [Optional[str]]: [None] and the empty string
    are false. *)
Definition truthy (s : option string) : bool :=
  match s with
  | Some (String _ _) => true
  | _ => false
  end.

(** ** models.py *)

Module User.
Record t : Type := mk {
  id : Z;
  email : string;
  created_at : Z
}.
End User.

Module AnalysisResult.
Record t : Type := mk {
  id : string;
  user_id : option Z;
  filename : string;
  status : string;
  result_json : json;               (* nullable JSON column; None is JNull *)
  error_message : option string;
  created_at : Z;
  completed_at : option Z
}.

Definition with_status (a : t) (s : string) : t :=
  mk (id a) (user_id a) (filename a) s (result_json a)
     (error_message a) (created_at a) (completed_at a).
Definition with_result_json (a : t) (r : json) : t :=
  mk (id a) (user_id a) (filename a) (status a) r
     (error_message a) (created_at a) (completed_at a).
Definition with_error_message (a : t) (m : option string) : t :=
  mk (id a) (user_id a) (filename a) (status a) (result_json a)
     m (created_at a) (completed_at a).
Definition with_completed_at (a : t) (c : option Z) : t :=
  mk (id a) (user_id a) (filename a) (status a) (result_json a)
     (error_message a) (created_at a) c.
End AnalysisResult.

(** ** The world *)

(** A message on the executor's queue: [apply_async(args=[...], task_id=...,
    expires=...)]. *)
Record queued : Type := mk_queued {
  q_task_id : string;
  q_file_path : string;
  q_query : string;
  q_user_id : option Z;
  q_expires : Z
}.

Inductive event : Type :=
| EvCommit (row : AnalysisResult.t)     (* session.commit() of a job row *)
| EvKickoff (query : string)            (* financial_crew.kickoff(inputs=...) *)
| EvUpdateState (state : string) (meta : list (string * string))
                                        (* self.update_state(state=, meta=) *)
| EvSessionClose.                       (* session.close() *)

Record World : Type := mk_World {
  db : gmap string AnalysisResult.t;    (* table analysis_results *)
  users : list User.t;                  (* table users, in insertion order *)
  fs : gmap string string;              (* files on disk, path to content *)
  queue : list queued;                  (* the executor's work queue *)
  clock : Z;                            (* datetime.utcnow() *)
  trace : list event
}.

Definition set_db (w : World) (d : gmap string AnalysisResult.t) : World :=
  mk_World d (users w) (fs w) (queue w) (clock w) (trace w).
Definition set_users (w : World) (u : list User.t) : World :=
  mk_World (db w) u (fs w) (queue w) (clock w) (trace w).
Definition set_fs (w : World) (f : gmap string string) : World :=
  mk_World (db w) (users w) f (queue w) (clock w) (trace w).
Definition set_queue (w : World) (q : list queued) : World :=
  mk_World (db w) (users w) (fs w) q (clock w) (trace w).
Definition emit (w : World) (e : event) : World :=
  mk_World (db w) (users w) (fs w) (queue w) (clock w) (trace w ++ [e]).

(** ** Computations: state and exceptions *)

Definition M (A : Type) : Type := World -> outcome A * World.

Definition ret {A} (a : A) : M A := fun w => (Ok a, w).
Definition raise {A} (e : exc) : M A := fun w => (Raise e, w).
Definition bind {A B} (m : M A) (k : A -> M B) : M B :=
  fun w => match m w with
           | (Ok a, w') => k a w'
           | (Raise e, w') => (Raise e, w')
           end.
(** [try: m  except Exception as e: h e] *)
Definition try_except {A} (m : M A) (h : exc -> M A) : M A :=
  fun w => match m w with
           | (Ok a, w') => (Ok a, w')
           | (Raise e, w') => h e w'
           end.
(** [try: m  finally: f]; an exception of [f] replaces the pending one. *)
Definition try_finally {A} (m : M A) (f : M unit) : M A :=
  fun w => match m w with
           | (r, w') => match f w' with
                        | (Ok _, w'') => (r, w'')
                        | (Raise e, w'') => (Raise e, w'')
                        end
           end.
Definition lift {A} (o : outcome A) : M A := fun w => (o, w).
Definition get_world : M World := fun w => (Ok w, w).
Definition modify (f : World -> World) : M unit := fun w => (Ok tt, f w).
Definition utcnow : M Z := fun w => (Ok (clock w), w).

Notation "'let*' x ':=' m 'in' k" := (bind m (fun x => k))
  (at level 10, x name, m at level 100, k at level 200, only parsing).

(** ** The external collaborators *)

Record Env : Type := mk_Env {
  (* financial_crew.kickoff(inputs={"query": query}): what it returns or
     raises. The files the crew's tasks write and the time the call takes
     are outside the model: nothing below is stated about files or the
     clock across a call of the collaborator. *)
  kickoff : string -> outcome string;
  (* json.loads: a value, JSONDecodeError, or another exception *)
  json_loads : string -> outcome json;
  json_dumps : json -> string;
  (* SessionLocal(): [Some e] when opening the session raises e *)
  SessionLocal_error : option exc;
  (* open(path, "wb") / f.write(content) *)
  file_write_error : string -> option exc;
  (* analyze_document_task.apply_async(...) *)
  apply_async_error : option exc
}.

(** ** datetime

    A [datetime] is the number of microseconds since [datetime.min],
    0001-01-01 00:00:00; [datetime.max] is 9999-12-31 23:59:59.999999.
    A [timedelta] is a number of microseconds. *)

Module datetime.
Definition max : Z := 3652059 * 86400 * 1000000 - 1.

(** [timedelta(days=days)] for an [int]: CPython refuses more than
    999999999 days in either direction, with a message of its own when the
    number does not fit a C int. *)
Definition timedelta (days : Z) : outcome Z :=
  if Z.leb (Z.abs days) 999999999
  then Ok (days * 86400 * 1000000)
  else if Z.leb (- 2147483648) days && Z.leb days 2147483647
       then Raise (Exception ("days=" +:+ pretty days
                              +:+ "; must have magnitude <= 999999999"))
       else Raise (Exception "Python int too large to convert to C int").

(** [t - delta]: OverflowError when the result is not a datetime. *)
Definition sub (t delta : Z) : outcome Z :=
  if Z.leb 0 (t - delta) && Z.leb (t - delta) max
  then Ok (t - delta)
  else Raise (Exception "date value out of range").
End datetime.

(** ** crud.py *)

Module crud.
Import AnalysisResult.

(** [session.commit()] after [session.add] or after attribute updates of
    a row; [session.refresh] then reads the same row back. *)
Definition commit (a : AnalysisResult.t) : M unit :=
  modify (fun w => emit (set_db w (<[id a := a]> (db w))) (EvCommit a)).

(** The first user with this email, or a new row whose key is one more
    than the largest key in use. *)
Definition get_or_create_user (email : string) : M User.t :=
  let* w := get_world in
  match List.find (fun u => String.eqb (User.email u) email) (users w) with
  | Some user => ret user
  | None =>
      let user := User.mk (1 + fold_right Z.max 0 (map User.id (users w)))
                          email (clock w) in
      let* _ := modify (fun w => set_users w (users w ++ [user])) in
      ret user
  end.

(** Inserts a row with status "pending"; the primary key rejects a
    second row with the same id (the message of the IntegrityError is
    abbreviated). *)
Definition create_analysis (task_id filename : string) (user_id : option Z)
  : M AnalysisResult.t :=
  let* w := get_world in
  match db w !! task_id with
  | Some _ =>
      raise (Exception "UNIQUE constraint failed: analysis_results.id")
  | None =>
      let analysis :=
        AnalysisResult.mk task_id user_id filename "pending"
                          JNull None (clock w) None in
      let* _ := commit analysis in
      ret analysis
  end.

Definition get_analysis (task_id : string) : M (option AnalysisResult.t) :=
  let* w := get_world in
  ret (db w !! task_id).

Definition update_analysis_status (task_id status : string)
    (error_message : option string) : M (option AnalysisResult.t) :=
  let* analysis := get_analysis task_id in
  match analysis with
  | Some analysis =>
      let analysis := with_status analysis status in
      let analysis :=
        if truthy error_message
        then with_error_message analysis error_message
        else analysis in
      let* now := utcnow in
      let analysis :=
        if String.eqb status "completed"
        then with_completed_at analysis (Some now)
        else analysis in
      let* _ := commit analysis in
      ret (Some analysis)
  | None => ret None
  end.

Definition update_analysis_result (task_id status : string)
    (result_json : json) : M (option AnalysisResult.t) :=
  let* analysis := get_analysis task_id in
  match analysis with
  | Some analysis =>
      let analysis := with_status analysis status in
      let analysis := with_result_json analysis result_json in
      let* now := utcnow in
      let analysis := with_completed_at analysis (Some now) in
      let* _ := commit analysis in
      ret (Some analysis)
  | None => ret None
  end.

(** [timedelta(days=days)] in microseconds. *)
Definition timedelta_days (days : Z) : Z := days * 86400 * 1000000.

(** The rows selected by [completed_at < cutoff_date]; a NULL
    completed_at satisfies no comparison. *)
Definition expired (cutoff_date : Z) (a : AnalysisResult.t) : bool :=
  match completed_at a with
  | Some t => Z.ltb t cutoff_date
  | None => false
  end.

(** The cutoff is computed first, so an OverflowError of the date
    arithmetic leaves the table as it was. *)
Definition delete_old_analyses (days : Z) : M Z :=
  let* now := utcnow in
  let* delta := lift (datetime.timedelta days) in
  let* cutoff_date := lift (datetime.sub now delta) in
  let* w := get_world in
  let result := filter (fun kv => expired cutoff_date kv.2 = true) (db w) in
  let count := Z.of_nat (size result) in
  let* _ := modify (fun w => set_db w
              (filter (fun kv => expired cutoff_date kv.2 <> true) (db w))) in
  ret count.
End crud.

(** ** Python string helpers *)

(** A [string] holds the UTF-8 bytes of a Python [str]. [str.lower()] is
    modelled on the ASCII range, bytes above 127 are left as they are;
    [str.strip()] removes every character Python counts as whitespace. *)
Definition lower_ascii (c : ascii) : ascii :=
  let n := nat_of_ascii c in
  if (65 <=? n)%nat && (n <=? 90)%nat then ascii_of_nat (n + 32) else c.

Fixpoint lower (s : string) : string :=
  match s with
  | EmptyString => EmptyString
  | String c s' => String (lower_ascii c) (lower s')
  end.

Definition endswith (s suffix : string) : bool :=
  let n := String.length s in
  let m := String.length suffix in
  (m <=? n)%nat && String.eqb (substring (n - m) m s) suffix.

(** The whitespace of [str.strip()] and [str.isspace()], by the length of
    the UTF-8 encoding: U+0009 to U+000D and U+001C to U+0020 in one byte;
    U+0085 and U+00A0 in two; U+1680, U+2000 to U+200A, U+2028, U+2029,
    U+202F, U+205F and U+3000 in three. *)
Definition is_space (c : ascii) : bool :=
  let n := nat_of_ascii c in
  ((9 <=? n)%nat && (n <=? 13)%nat) || ((28 <=? n)%nat && (n <=? 32)%nat).

Definition is_space2 (a b : ascii) : bool :=
  (nat_of_ascii a =? 194)%nat
  && ((nat_of_ascii b =? 133)%nat || (nat_of_ascii b =? 160)%nat).

Definition is_space3 (a b c : ascii) : bool :=
  let x := nat_of_ascii a in
  let y := nat_of_ascii b in
  let z := nat_of_ascii c in
  ((x =? 225)%nat && (y =? 154)%nat && (z =? 128)%nat)
  || ((x =? 226)%nat && (y =? 128)%nat
      && (((128 <=? z)%nat && (z <=? 138)%nat)
          || (z =? 168)%nat || (z =? 169)%nat || (z =? 175)%nat))
  || ((x =? 226)%nat && (y =? 129)%nat && (z =? 159)%nat)
  || ((x =? 227)%nat && (y =? 128)%nat && (z =? 128)%nat).

(** The number of bytes of the whitespace character [s] starts with, 0 when
    it starts with none. *)
Definition space_bytes (s : string) : nat :=
  match s with
  | EmptyString => 0
  | String a s1 =>
      if is_space a then 1
      else match s1 with
           | EmptyString => 0
           | String b s2 =>
               if is_space2 a b then 2
               else match s2 with
                    | EmptyString => 0
                    | String c _ => if is_space3 a b c then 3 else 0
                    end
           end
  end.

Fixpoint lstrip (s : string) : string :=
  match s with
  | EmptyString => EmptyString
  | String a s1 =>
      if is_space a then lstrip s1
      else match s1 with
           | EmptyString => s
           | String b s2 =>
               if is_space2 a b then lstrip s2
               else match s2 with
                    | EmptyString => s
                    | String c s3 => if is_space3 a b c then lstrip s3 else s
                    end
           end
  end.

(** The longest prefix after which only whitespace follows. *)
Fixpoint rstrip (s : string) : string :=
  match s with
  | EmptyString => EmptyString
  | String a s1 =>
      if String.eqb (lstrip s) EmptyString
      then EmptyString
      else String a (rstrip s1)
  end.

Definition strip (s : string) : string := rstrip (lstrip s).

(** [d.get(key, default)] on a dict literal. *)
Fixpoint dict_get {V} (d : list (string * V)) (key : string) (default : V) : V :=
  match d with
  | [] => default
  | (k, v) :: d' => if String.eqb k key then v else dict_get d' key default
  end.

(** ** schemas.py *)

Module schemas.
Record AnalysisStatusResponse_t : Type := mk_status {
  s_task_id : string;
  s_status : string;
  s_progress : option Z
}.

Record AnalysisResultResponse_t : Type := mk_result {
  r_id : string;
  r_user_id : option Z;
  r_filename : string;
  r_status : string;
  r_result : json;
  r_error : option string;
  r_created_at : Z;
  r_completed_at : option Z
}.

Record AnalysisRequestResponse_t : Type := mk_request {
  q_resp_task_id : string;
  q_resp_status : string;
  q_resp_message : string;
  q_resp_status_url : string
}.

(** [pattern="^(pending|running|completed|failed)$"] *)
Definition status_pattern (s : string) : bool :=
  String.eqb s "pending" || String.eqb s "running"
  || String.eqb s "completed" || String.eqb s "failed".

(** [Optional[dict]]: a dict or None. *)
Definition optional_dict (v : json) : bool :=
  match v with
  | JNull | JObj _ => true
  | _ => false
  end.

(** Constructing a model validates its fields; a pydantic
    ValidationError is an [Exception] (its message is abbreviated). *)
Definition AnalysisStatusResponse (task_id status : string)
    (progress : option Z) : outcome AnalysisStatusResponse_t :=
  if negb (status_pattern status)
  then Raise (Exception "1 validation error for AnalysisStatusResponse: status")
  else if match progress with
          | Some p => negb (Z.leb 0 p && Z.leb p 100)
          | None => false
          end
  then Raise (Exception "1 validation error for AnalysisStatusResponse: progress")
  else Ok (mk_status task_id status progress).

Definition AnalysisResultResponse (id : string) (user_id : option Z)
    (filename status : string) (result : json) (error : option string)
    (created_at : Z) (completed_at : option Z)
  : outcome AnalysisResultResponse_t :=
  if optional_dict result
  then Ok (mk_result id user_id filename status result error
                     created_at completed_at)
  else Raise (Exception "1 validation error for AnalysisResultResponse: result").
End schemas.

(** ** main.py

    The file defines the application and each endpoint twice; the second
    definitions, which are the ones in force, are the first ones without
    their [logger] calls, so one embedding serves both. *)

Record UploadFile : Type := mk_UploadFile {
  upload_filename : option string;
  upload_content : string
}.

Module main.
Import AnalysisResult.

(** The collaborator is called inside [try]; whatever it raises is
    turned into the returned text. *)
Definition run_crew_analysis (env : Env) (query file_path : string)
  : M string :=
  try_except
    (let* _ := modify (fun w => emit w (EvKickoff query)) in
     let* result := lift (kickoff env query) in
     ret result)
    (fun e =>
       ret (json_dumps env
              (JObj [("error", JStr (str_exc e)); ("status", JStr "failed")]))).

(** The two handlers every endpoint ends with:
    [except HTTPException: raise] and
    [except Exception as e: raise HTTPException(500, prefix + str(e))]. *)
Definition http_errors {A} (prefix : string) (cleanup : M unit) (m : M A)
  : M A :=
  try_except m
    (fun e =>
       match e with
       | HTTPException _ _ => raise e
       | _ =>
           let* _ := cleanup in
           raise (HTTPException 500 (prefix +:+ str_exc e))
       end).

Definition is_pdf (filename : option string) : bool :=
  match filename with
  | Some (String c s) => endswith (lower (String c s)) ".pdf"
  | _ => false
  end.

Definition user_id_of (user : option User.t) : option Z :=
  match user with
  | Some u => Some (User.id u)
  | None => None
  end.

(** POST /analyze. [file_id] is the value of [str(uuid.uuid4())]. *)
Definition submit_analysis (env : Env) (file_id : string)
    (file : UploadFile) (query : string) (email : option string)
  : M schemas.AnalysisRequestResponse_t :=
  let file_path := "data/financial_document_" +:+ file_id +:+ ".pdf" in
  http_errors "Error submitting analysis: "
    (* if os.path.exists(file_path): os.remove(file_path) *)
    (modify (fun w => set_fs w (delete file_path (fs w))))
    (let* _ := if negb (is_pdf (upload_filename file))
               then raise (HTTPException 400 "Only PDF files are supported")
               else ret tt in
     let* _ := match file_write_error env file_path with
               | Some e => raise e
               | None => modify (fun w =>
                   set_fs w (<[file_path := upload_content file]> (fs w)))
               end in
     let query :=
       if String.eqb (strip query) ""
       then "Analyze this financial document comprehensively"
       else strip query in
     let* user :=
       if truthy email
       then try_except
              (let* u := crud.get_or_create_user (default "" email) in
               ret (Some u))
              (fun _ => ret None)
       else ret None in
     let* analysis :=
       crud.create_analysis file_id (default "" (upload_filename file))
                            (user_id_of user) in
     let* verify_analysis := crud.get_analysis file_id in
     let task_id := file_id in
     let* _ := match apply_async_error env with
               | Some e => raise e
               | None => modify (fun w => set_queue w
                   (queue w ++ [mk_queued task_id file_path query
                                          (user_id_of user) 3600]))
               end in
     ret (schemas.mk_request task_id "pending"
            "Analysis submitted successfully. Use status endpoint to check progress."
            ("/status/" +:+ task_id))).

(** GET /status/{task_id} *)
Definition check_status (task_id : string)
  : M schemas.AnalysisStatusResponse_t :=
  http_errors "Error checking status: " (ret tt)
    (let* analysis := crud.get_analysis task_id in
     match analysis with
     | None => raise (HTTPException 404 ("Task " +:+ task_id +:+ " not found"))
     | Some analysis =>
         let progress :=
           dict_get [("pending", 0); ("running", 50);
                     ("completed", 100); ("failed", 0)]
                    (status analysis) 0 in
         lift (schemas.AnalysisStatusResponse
                 task_id (status analysis) (Some progress))
     end).

(** GET /analysis/{task_id} *)
Definition get_analysis_result (task_id : string)
  : M schemas.AnalysisResultResponse_t :=
  http_errors "Error retrieving analysis: " (ret tt)
    (let* analysis := crud.get_analysis task_id in
     match analysis with
     | None =>
         raise (HTTPException 404 ("Analysis " +:+ task_id +:+ " not found"))
     | Some analysis =>
         if String.eqb (status analysis) "pending"
            || String.eqb (status analysis) "running"
         then raise (HTTPException 202
                ("Analysis still processing. Current status: "
                 +:+ status analysis +:+ ". Check /status/" +:+ task_id))
         else if String.eqb (status analysis) "failed"
         then raise (HTTPException 400
                ("Analysis failed: "
                 +:+ default "None" (error_message analysis)))
         else lift (schemas.AnalysisResultResponse
                      (id analysis) (user_id analysis) (filename analysis)
                      (status analysis) (result_json analysis)
                      (error_message analysis) (created_at analysis)
                      (completed_at analysis))
     end).
End main.

(** ** celery_app.py *)

Module celery_app.

(** [session = SessionLocal()] *)
Definition SessionLocal (env : Env) : M unit :=
  match SessionLocal_error env with
  | Some e => raise e
  | None => ret tt
  end.

(** The [try] block after the session is open: steps 1 to 4. *)
Definition task_steps (env : Env) (task_id file_path query : string)
  : M json :=
  let* _ := crud.update_analysis_status task_id "running" None in
  let* analysis_result := main.run_crew_analysis env query file_path in
  let* result_json :=
    try_except (lift (json_loads env analysis_result))
      (fun e =>
         match e with
         | JSONDecodeError _ => ret (JObj [("raw_analysis", JStr analysis_result)])
         | _ => raise e
         end) in
  let* _ := crud.update_analysis_result task_id "completed" result_json in
  ret (JObj [("status", JStr "completed"); ("task_id", JStr task_id);
             ("result", result_json)]).

(** [except Exception as exc:]; [session] tells whether the local
    variable was assigned before the exception. *)
Definition on_exception (task_id : string) (session : bool) (exc : exc)
  : M json :=
  let error_msg := str_exc exc in
  let* _ :=
    if session
    then try_except
           (let* _ := crud.update_analysis_status task_id "failed"
                        (Some error_msg) in
            ret tt)
           (fun db_err => ret tt)
    else ret tt in
  let* _ := modify (fun w => emit w
              (EvUpdateState "FAILURE"
                 [("error", error_msg); ("task_id", task_id)])) in
  raise exc.

(** [finally: if session: session.close()] *)
Definition close_session (session : bool) : M unit :=
  if session then modify (fun w => emit w EvSessionClose) else ret tt.

(** The task. [session] is None until [SessionLocal()] has returned, so
    the handler and the [finally] clause are given the flag for the
    place the exception came from. *)
Definition analyze_document_task (env : Env)
    (task_id file_path query : string) (user_id : option Z) : M json :=
  fun w =>
    match SessionLocal env w with
    | (Raise e, w') =>
        try_finally (on_exception task_id false e) (close_session false) w'
    | (Ok _, w') =>
        try_finally
          (try_except (task_steps env task_id file_path query)
                      (on_exception task_id true))
          (close_session true) w'
    end.
End celery_app.

(** ** Row-level reading of the executor *)

Import AnalysisResult.

(** The row [update_analysis_status] commits at time [now]. *)
Definition status_row (a : AnalysisResult.t) (status : string)
    (error_message : option string) (now : Z) : AnalysisResult.t :=
  let a1 := with_status a status in
  let a2 := if truthy error_message then with_error_message a1 error_message
            else a1 in
  if String.eqb status "completed" then with_completed_at a2 (Some now) else a2.

(** The row [update_analysis_result] commits at time [now]. *)
Definition result_row (a : AnalysisResult.t) (status : string)
    (result_json : json) (now : Z) : AnalysisResult.t :=
  with_completed_at (with_result_json (with_status a status) result_json)
                    (Some now).

(** The world after the commit of the row [a]. *)
Definition committed (w : World) (a : AnalysisResult.t) : World :=
  emit (set_db w (<[id a := a]> (db w))) (EvCommit a).

(** The rows committed in a trace, oldest first. *)
Fixpoint commits (t : list event) : list AnalysisResult.t :=
  match t with
  | [] => []
  | EvCommit a :: t' => a :: commits t'
  | _ :: t' => commits t'
  end.

(** The world after [update_analysis_status] and after
    [update_analysis_result]: one commit when the row exists, nothing
    otherwise. *)
Definition mark (task_id status : string) (msg : option string) (w : World)
  : World :=
  match db w !! task_id with
  | Some a => committed w (status_row a status msg (clock w))
  | None => w
  end.

Definition store (task_id status : string) (v : json) (w : World) : World :=
  match db w !! task_id with
  | Some a => committed w (result_row a status v (clock w))
  | None => w
  end.

(** What [run_crew_analysis] makes of an exception of the collaborator,
    and the text it hands to the executor. *)
Definition error_payload (e : exc) : json :=
  JObj [("error", JStr (str_exc e)); ("status", JStr "failed")].

Definition analysis_text (env : Env) (query : string) : string :=
  match kickoff env query with
  | Ok result => result
  | Raise e => json_dumps env (error_payload e)
  end.

(** Step 3 of the task on the text [s]. *)
Definition parse_step (env : Env) (s : string) : outcome json :=
  match json_loads env s with
  | Ok v => Ok v
  | Raise (JSONDecodeError _) => Ok (JObj [("raw_analysis", JStr s)])
  | Raise e => Raise e
  end.

(** The call [self.update_state(state="FAILURE", meta=...)] and the
    dictionary the task returns. *)
Definition failure_event (task_id : string) (e : exc) : event :=
  EvUpdateState "FAILURE" [("error", str_exc e); ("task_id", task_id)].

Definition task_return (task_id : string) (v : json) : json :=
  JObj [("status", JStr "completed"); ("task_id", JStr task_id); ("result", v)].

(** The row committed by step 1, and the rows committed at the end. *)
Definition running_row (a : AnalysisResult.t) : AnalysisResult.t :=
  with_status a "running".
Definition completed_row (a : AnalysisResult.t) (v : json) (now : Z)
  : AnalysisResult.t :=
  result_row (running_row a) "completed" v now.
Definition failed_row (a : AnalysisResult.t) (e : exc) (now : Z)
  : AnalysisResult.t :=
  status_row (running_row a) "failed" (Some (str_exc e)) now.

(** The same collaborators with another [kickoff]. *)
Definition with_kickoff (env : Env) (k : string -> outcome string) : Env :=
  mk_Env k (json_loads env) (json_dumps env) (SessionLocal_error env)
         (file_write_error env) (apply_async_error env).

(** ** Concrete collaborators for evaluation

    [json.dumps] with Python's default separators on values whose strings
    are printable ASCII without quotes or backslashes, and a [json.loads]
    that inverts it on a table of documents and rejects every other text
    the way Python rejects a text that does not start a JSON value.
    Theorems quantify over [Env]; only the closed examples use these. *)

Module Demo.
(** [s] between double quotes. *)
Definition quoted (s : string) : string :=
  String (ascii_of_nat 34) s +:+ String (ascii_of_nat 34) EmptyString.

Fixpoint dumps (v : json) : string :=
  match v with
  | JNull => "null"
  | JBool true => "true"
  | JBool false => "false"
  | JNum n => pretty n
  | JStr s => quoted s
  | JArr items =>
      "[" +:+ (fix go (l : list json) : string :=
                 match l with
                 | [] => EmptyString
                 | [x] => dumps x
                 | x :: l' => dumps x +:+ ", " +:+ go l'
                 end) items +:+ "]"
  | JObj fields =>
      "{" +:+ (fix go (l : list (string * json)) : string :=
                 match l with
                 | [] => EmptyString
                 | [(k, x)] => quoted k +:+ ": " +:+ dumps x
                 | (k, x) :: l' =>
                     quoted k +:+ ": " +:+ dumps x +:+ ", " +:+ go l'
                 end) fields +:+ "}"
  end.

Definition buy : json :=
  JObj [("recommendation", JStr "BUY"); ("confidence_score", JNum 80)].

Definition documents : list json :=
  [ JNull;
    JArr [JNum 1; JNum 2];
    buy;
    JObj [("error", JStr "boom"); ("status", JStr "failed")] ].

Definition loads (s : string) : outcome json :=
  match List.find (fun v => String.eqb (dumps v) s) documents with
  | Some v => Ok v
  | None => Raise (JSONDecodeError "Expecting value: line 1 column 1 (char 0)")
  end.

Definition env (k : string -> outcome string) : Env :=
  mk_Env k loads dumps None (fun _ => None) None.

(** A text on which [json.loads] raises RecursionError, which is not a
    JSONDecodeError: one hundred thousand opening brackets. *)
Definition deep_text : string := N.iter 100000 (String "[") EmptyString.

Definition deep_env : Env :=
  mk_Env (fun _ => Ok deep_text)
         (fun s =>
            if String.eqb s deep_text
            then Raise (Exception
                   "maximum recursion depth exceeded while decoding a JSON array from a unicode string")
            else loads s)
         dumps None (fun _ => None) None.

Definition row (task_id status : string) (result : json)
    (error : option string) (completed : option Z) : AnalysisResult.t :=
  AnalysisResult.mk task_id None "report.pdf" status result error 1000
                    completed.

Definition world (rows : list AnalysisResult.t) (now : Z) : World :=
  mk_World (list_to_map (map (fun a => (id a, a)) rows)) [] ∅ [] now [].

Definition pending : AnalysisResult.t := row "t1" "pending" JNull None None.
Definition running : AnalysisResult.t := row "t1" "running" JNull None None.
Definition completed : AnalysisResult.t :=
  row "t1" "completed" buy None (Some 5000).

(** One run of the task for job "t1" with the collaborators [e] on the
    given rows: the world it leaves. *)
Definition run (e : Env) (rows : list AnalysisResult.t) (now : Z) : World :=
  (celery_app.analyze_document_task e "t1"
     "data/financial_document_t1.pdf" "Analyze this" None
     (world rows now)).2.

Definition null_run : World := run (env (fun _ => Ok "null")) [pending] 5000.
Definition failed_run : World := run deep_env [pending] 5000.
Definition second_run : World :=
  run (env (fun _ => Ok "null")) [completed] 6000.

(** U+00A0 NO-BREAK SPACE and U+3000 IDEOGRAPHIC SPACE in UTF-8. *)
Definition nbsp : string :=
  String (ascii_of_nat 194) (String (ascii_of_nat 160) EmptyString).
Definition ideographic_space : string :=
  String (ascii_of_nat 227)
    (String (ascii_of_nat 128) (String (ascii_of_nat 128) EmptyString)).

(** An old completed row, a recent completed row, an old failed row and an
    old pending row. *)
Definition sweep_rows : list AnalysisResult.t :=
  [ row "old-done" "completed" buy None (Some 1000);
    row "new-done" "completed" buy None (Some (crud.timedelta_days 9));
    row "old-failed" "failed" JNull (Some "boom") None;
    row "old-pending" "pending" JNull None None ].
End Demo.

(** ** tools.py

    The two [while] loops are iterations with fuel: [None] means that the
    fuel ran out before the loop condition became false. The PDF loader,
    the import of its module and [os.path.exists] are parameters. *)

Module tools.
Definition newline : ascii := ascii_of_nat 10.
Definition space : ascii := ascii_of_nat 32.

(** ["\n\n" in content] *)
Fixpoint has_blank_line (content : string) : bool :=
  match content with
  | String c s' =>
      match s' with
      | String d _ =>
          (Ascii.eqb c newline && Ascii.eqb d newline) || has_blank_line s'
      | EmptyString => false
      end
  | EmptyString => false
  end.

(** [content.replace("\n\n", "\n")]: the occurrences are replaced from the
    left and do not overlap. *)
Fixpoint replace_blank_lines (content : string) : string :=
  match content with
  | String c s' =>
      match s' with
      | String d s'' =>
          if Ascii.eqb c newline && Ascii.eqb d newline
          then String newline (replace_blank_lines s'')
          else String c (replace_blank_lines s')
      | EmptyString => content
      end
  | EmptyString => EmptyString
  end.

(** [while "\n\n" in content: content = content.replace("\n\n", "\n")] *)
Fixpoint clean_page (fuel : nat) (content : string) : option string :=
  match fuel with
  | O => None
  | S fuel' =>
      if has_blank_line content
      then clean_page fuel' (replace_blank_lines content)
      else Some content
  end.

Record pdf_env : Type := mk_pdf_env {
  (* from langchain_community.document_loaders import PyPDFLoader *)
  import_error : option exc;
  (* os.path.exists(path) *)
  path_exists : string -> bool;
  (* [data.page_content for data in PyPDFLoader(path).load()] *)
  load : string -> outcome (list string)
}.

(** The [for] loop over the pages: [full_report += content + "\n"]. *)
Fixpoint report_pages (fuel : nat) (docs : list string) (full_report : string)
  : option string :=
  match docs with
  | [] => Some full_report
  | content :: docs' =>
      match clean_page fuel content with
      | Some content =>
          report_pages fuel docs'
            (full_report +:+ content +:+ String newline EmptyString)
      | None => None
      end
  end.

Definition read_data_tool (fuel : nat) (env : pdf_env) (path : string)
  : option string :=
  match import_error env with
  | Some e => Some ("Error reading PDF: " +:+ str_exc e)
  | None =>
      if path_exists env path
      then match load env path with
           | Raise e => Some ("Error reading PDF: " +:+ str_exc e)
           | Ok docs =>
               match report_pages fuel docs EmptyString with
               | Some EmptyString => Some "No content found in PDF"
               | Some full_report => Some full_report
               | None => None
               end
           end
      else Some ("PDF file not found at " +:+ path)
  end.

(** [s[i:]] and [s[:i]] *)
Fixpoint drop_chars (i : nat) (s : string) : string :=
  match i, s with
  | S i', String _ s' => drop_chars i' s'
  | _, _ => s
  end.

Fixpoint take_chars (i : nat) (s : string) : string :=
  match i, s with
  | S i', String c s' => String c (take_chars i' s')
  | _, _ => EmptyString
  end.

(** The loop of [analyze_investment_tool] from the state [(i,
    processed_data)]: a double space at [i] loses its first space,
    otherwise [i] moves on. *)
Fixpoint remove_double_spaces (fuel i : nat) (processed_data : string)
  : option string :=
  match fuel with
  | O => None
  | S fuel' =>
      if (i <? String.length processed_data)%nat
      then if String.eqb (take_chars 2 (drop_chars i processed_data))
                         (String space (String space EmptyString))
           then remove_double_spaces fuel' i
                  (take_chars i processed_data
                   +:+ drop_chars (S i) processed_data)
           else remove_double_spaces fuel' (S i) processed_data
      else Some processed_data
  end.

Definition analyze_investment_tool (fuel : nat)
    (financial_document_data : string) : option string :=
  match remove_double_spaces fuel 0 financial_document_data with
  | Some processed_data => Some "Investment analysis completed successfully"
  | None => None
  end.

End tools.

(** ** test_db_flow.py *)

(** Python truthiness of a JSON-shaped value. *)
Definition json_truthy (v : json) : bool :=
  match v with
  | JNull => false
  | JBool b => b
  | JNum n => negb (Z.eqb n 0)
  | JStr s => negb (String.eqb s EmptyString)
  | JArr items => match items with [] => false | _ => true end
  | JObj fields => match fields with [] => false | _ => true end
  end.

Module test_db_flow.
Import AnalysisResult.

(** [session.close()] in a [finally] clause. *)
Definition close : M unit := modify (fun w => emit w EvSessionClose).

Definition result_json : json :=
  JObj [("revenue", JStr "$1M"); ("profit", JStr "$0.5M");
        ("recommendation", JStr "BUY"); ("confidence", JNum 85)].

(** [test_database_flow] for the identifier [uuid.uuid4()] gave; the
    printing is left out. *)
Definition test_database_flow (task_id : string) : M bool :=
  let* analysis1 :=
    try_finally (crud.create_analysis task_id "test_document.pdf" None)
                close in
  let* analysis2 := try_finally (crud.get_analysis task_id) close in
  match analysis2 with
  | None => ret false
  | Some _ =>
      let* analysis3 :=
        try_finally
          (crud.update_analysis_result task_id "completed" result_json)
          close in
      match analysis3 with
      | None => ret false
      | Some _ =>
          try_finally
            (let* analysis4 := crud.get_analysis task_id in
             match analysis4 with
             | Some analysis4 =>
                 if String.eqb (status analysis4) "completed"
                    && json_truthy (AnalysisResult.result_json analysis4)
                 then ret true
                 else ret false
             | None => ret false
             end)
            close
      end
  end.
End test_db_flow.

(** ** Invariants and observations *)

(** The thresholds the date arithmetic of the sweeper accepts at the time
    [now]: [timedelta] takes the number of days, and [now] minus that many
    days is a datetime. *)
Definition sweepable (days now : Z) : Prop :=
  Z.abs days <= 999999999
  /\ 0 <= now - crud.timedelta_days days <= datetime.max.

(** Every row is stored under its own primary key. *)
Definition keyed (d : gmap string AnalysisResult.t) : Prop :=
  forall k a, d !! k = Some a -> id a = k.

(** The users table has distinct keys, all positive, and distinct emails. *)
Definition users_ok (us : list User.t) : Prop :=
  NoDup (map User.id us) /\ NoDup (map User.email us)
  /\ Forall (fun u => 0 < User.id u) us.

Definition is_commit (e : event) : bool :=
  match e with EvCommit _ => true | _ => false end.
Definition is_kickoff (e : event) : bool :=
  match e with EvKickoff _ => true | _ => false end.
Definition is_update_state (e : event) : bool :=
  match e with EvUpdateState _ _ => true | _ => false end.
Definition is_close (e : event) : bool :=
  match e with EvSessionClose => true | _ => false end.

Definition count (p : event -> bool) (t : list event) : nat :=
  length (List.filter p t).

(** The events one update appends: the commit of the row, if there is one. *)
Definition mark_events (task_id status : string) (msg : option string)
    (w : World) : list event :=
  match db w !! task_id with
  | Some a => [EvCommit (status_row a status msg (clock w))]
  | None => []
  end.

Definition store_events (task_id status : string) (v : json) (w : World)
  : list event :=
  match db w !! task_id with
  | Some a => [EvCommit (result_row a status v (clock w))]
  | None => []
  end.

(** The query that [submit_analysis] puts on the queue. *)
Definition normalized_query (query : string) : string :=
  if String.eqb (strip query) EmptyString
  then "Analyze this financial document comprehensively"
  else strip query.

(** The path under which [submit_analysis] stores the upload. *)
Definition upload_path (file_id : string) : string :=
  "data/financial_document_" +:+ file_id +:+ ".pdf".

(** A character that [str.strip()] removes, at the start of [s]; [s] being
    one such character; and one at the end of [s]. *)
Definition starts_with_space (s : string) : bool :=
  negb (Nat.eqb (space_bytes s) 0).

Definition is_space_char (s : string) : bool :=
  starts_with_space s && Nat.eqb (space_bytes s) (String.length s).

Fixpoint ends_with_space (s : string) : bool :=
  match s with
  | EmptyString => false
  | String _ s' => is_space_char s || ends_with_space s'
  end.

(** [s[n:]] *)
Fixpoint skip (n : nat) (s : string) : string :=
  match n, s with
  | S n', String _ s' => skip n' s'
  | _, _ => s
  end.

(** What [submit_analysis] does with an exception [e] raised after the
    format check: an HTTPException passes, anything else removes the
    upload and becomes a 500. *)
Definition submit_failure (file_id : string) (e : exc) (w : World)
  : outcome schemas.AnalysisRequestResponse_t * World :=
  match e with
  | HTTPException _ _ => (Raise e, w)
  | _ =>
      (Raise (HTTPException 500 ("Error submitting analysis: " +:+ str_exc e)),
       set_fs w (delete (upload_path file_id) (fs w)))
  end.

(** The owner [submit_analysis] resolves for an optional email. *)
Definition owner (email : option string) (w : World)
  : option User.t * World :=
  if truthy email
  then match crud.get_or_create_user (default EmptyString email) w with
       | (Ok u, w') => (Some u, w')
       | (Raise _, w') => (None, w')
       end
  else (None, w).

(** The row and the queue message of an accepted submission. *)
Definition submitted_row (file_id : string) (file : UploadFile)
    (user : option User.t) (now : Z) : AnalysisResult.t :=
  AnalysisResult.mk file_id (main.user_id_of user)
    (default EmptyString (upload_filename file)) "pending" JNull None now None.

Definition submitted_message (file_id query : string) (user : option User.t)
  : queued :=
  mk_queued file_id (upload_path file_id) (normalized_query query)
            (main.user_id_of user) 3600.

Definition submitted_response (file_id : string)
  : schemas.AnalysisRequestResponse_t :=
  schemas.mk_request file_id "pending"
    "Analysis submitted successfully. Use status endpoint to check progress."
    ("/status/" +:+ file_id).

(** The worker takes a message from the queue and calls the task with its
    arguments [[task_id, file_path, query, user_id]]. *)
Definition run_message (env : Env) (m : queued) : M json :=
  celery_app.analyze_document_task env (q_task_id m) (q_file_path m)
                                   (q_query m) (q_user_id m).

(** The text of [s] without the character [c]. *)
Fixpoint without (c : ascii) (s : string) : string :=
  match s with
  | EmptyString => EmptyString
  | String d s' => if Ascii.eqb d c then without c s' else String d (without c s')
  end.

(** ["  " in s] *)
Fixpoint has_double_space (s : string) : bool :=
  match s with
  | String c s' =>
      match s' with
      | String d _ =>
          (Ascii.eqb c tools.space && Ascii.eqb d tools.space)
          || has_double_space s'
      | EmptyString => false
      end
  | EmptyString => false
  end.

(** Every run of spaces reduced to its last space. *)
Fixpoint collapse_spaces (s : string) : string :=
  match s with
  | String c s' =>
      if String.eqb (tools.take_chars 2 s)
                    (String tools.space (String tools.space EmptyString))
      then collapse_spaces s'
      else String c (collapse_spaces s')
  | EmptyString => EmptyString
  end.

(** The pages joined as [read_data_tool] joins them. *)
Definition joined_pages (pages : list string) : string :=
  fold_right (fun page rest =>
                page +:+ String tools.newline EmptyString +:+ rest)
             EmptyString pages.

(** The pages of a document after the cleaning loop. *)
Definition cleaned (docs pages : list string) : Prop :=
  Forall2 (fun page content =>
             (forall fuel, (String.length page < fuel)%nat ->
                           tools.clean_page fuel page = Some content)
             /\ tools.has_blank_line content = false
             /\ without tools.newline content = without tools.newline page)
          docs pages.

(** A document of two pages, the first with three newlines in a row, and
    the collaborators of [read_data_tool] that load it from any path. *)
Definition sample_page : string :=
  "a" +:+ String tools.newline (String tools.newline
            (String tools.newline EmptyString)) +:+ "b".

Definition sample_pdf : tools.pdf_env :=
  {| tools.import_error := None;
     tools.path_exists := fun _ => true;
     tools.load := fun _ => Ok [sample_page; EmptyString] |}.

(** ** Proof steps *)

(** Projections of a world that was built by the operations. *)
Ltac world_fields := cbn [db users fs queue clock trace fst snd].

(** Runs a query handler down to the lookup of the row. *)
Ltac run_handler :=
  cbv beta iota zeta delta
    [main.check_status main.get_analysis_result main.http_errors
     try_except bind crud.get_analysis get_world ret raise lift].

(** * Properties *)

(** ** The store operations in closed form *)

Lemma update_analysis_status_eq task_id status msg w :
  crud.update_analysis_status task_id status msg w =
  (Ok ((fun a => status_row a status msg (clock w)) <$> db w !! task_id),
   mark task_id status msg w).
Proof.
  unfold crud.update_analysis_status, crud.get_analysis, mark, status_row,
    bind, get_world, utcnow, ret, crud.commit, modify, committed.
  destruct (db w !! task_id) as [a|]; [|reflexivity].
  destruct (truthy msg), (String.eqb status "completed"); reflexivity.
Qed.

Lemma update_analysis_result_eq task_id status v w :
  crud.update_analysis_result task_id status v w =
  (Ok ((fun a => result_row a status v (clock w)) <$> db w !! task_id),
   store task_id status v w).
Proof.
  unfold crud.update_analysis_result, crud.get_analysis, store, result_row,
    bind, get_world, utcnow, ret, crud.commit, modify, committed.
  destruct (db w !! task_id) as [a|]; reflexivity.
Qed.

Lemma update_analysis_status_found task_id status msg w a :
  db w !! task_id = Some a ->
  crud.update_analysis_status task_id status msg w
  = (Ok (Some (status_row a status msg (clock w))),
     committed w (status_row a status msg (clock w))).
Proof.
  intros Ha. rewrite update_analysis_status_eq. unfold mark. rewrite Ha.
  reflexivity.
Qed.

Lemma update_analysis_result_found task_id status v w a :
  db w !! task_id = Some a ->
  crud.update_analysis_result task_id status v w
  = (Ok (Some (result_row a status v (clock w))),
     committed w (result_row a status v (clock w))).
Proof.
  intros Ha. rewrite update_analysis_result_eq. unfold store. rewrite Ha.
  reflexivity.
Qed.

(** The row a submission creates: pending, with no result, no error
    message and no completed_at, stored under its own id. *)
Lemma create_analysis_pending task_id filename user_id w :
  db w !! task_id = None ->
  crud.create_analysis task_id filename user_id w
  = (Ok (AnalysisResult.mk task_id user_id filename "pending" JNull None
           (clock w) None),
     committed w (AnalysisResult.mk task_id user_id filename "pending" JNull
                    None (clock w) None)).
Proof.
  intros Hnone. unfold crud.create_analysis, bind, get_world.
  rewrite Hnone. reflexivity.
Qed.

Lemma id_status_row a status msg now : id (status_row a status msg now) = id a.
Proof.
  unfold status_row.
  destruct (truthy msg), (String.eqb status "completed"); reflexivity.
Qed.

Lemma status_status_row a status msg now :
  AnalysisResult.status (status_row a status msg now) = status.
Proof.
  unfold status_row.
  destruct (truthy msg), (String.eqb status "completed"); reflexivity.
Qed.

Lemma completed_at_status_row a status msg now :
  completed_at (status_row a status msg now)
  = if String.eqb status "completed" then Some now else completed_at a.
Proof.
  unfold status_row.
  destruct (truthy msg), (String.eqb status "completed"); reflexivity.
Qed.

Lemma result_json_status_row a status msg now :
  result_json (status_row a status msg now) = result_json a.
Proof.
  unfold status_row.
  destruct (truthy msg), (String.eqb status "completed"); reflexivity.
Qed.

Lemma error_message_status_row a status msg now :
  error_message (status_row a status msg now)
  = if truthy msg then msg else error_message a.
Proof.
  unfold status_row.
  destruct (truthy msg), (String.eqb status "completed"); reflexivity.
Qed.

Create Rewrite HintDb row.
#[local] Hint Rewrite id_status_row status_status_row completed_at_status_row
  result_json_status_row error_message_status_row : row.

Lemma commits_app t1 t2 :
  commits (t1 ++ t2)%list = (commits t1 ++ commits t2)%list.
Proof.
  induction t1 as [|e t1 IH]; [reflexivity|].
  destruct e; cbn; rewrite IH; reflexivity.
Qed.

(** ** The task in closed form *)

Section Task.
Context (env : Env) (file_path query : string) (user_id : option Z).

Lemma run_crew_analysis_eq w :
  main.run_crew_analysis env query file_path w =
  (Ok (analysis_text env query), emit w (EvKickoff query)).
Proof.
  unfold main.run_crew_analysis, analysis_text, error_payload, try_except,
    bind, modify, lift, ret.
  destruct (kickoff env query); reflexivity.
Qed.

Lemma task_steps_eq task_id w :
  celery_app.task_steps env task_id file_path query w =
  let w2 := emit (mark task_id "running" None w) (EvKickoff query) in
  match parse_step env (analysis_text env query) with
  | Ok v => (Ok (task_return task_id v), store task_id "completed" v w2)
  | Raise e => (Raise e, w2)
  end.
Proof.
  unfold celery_app.task_steps, bind.
  rewrite update_analysis_status_eq, run_crew_analysis_eq.
  unfold try_except, lift, parse_step, ret, raise.
  destruct (json_loads env (analysis_text env query)) as [v|[c d|m|m]];
    cbn beta iota; rewrite ?update_analysis_result_eq; reflexivity.
Qed.

(** Every path of the task: the session cannot be opened; the steps
    succeed; a step raises. *)
Lemma analyze_document_task_eq task_id w :
  celery_app.analyze_document_task env task_id file_path query user_id w =
  match SessionLocal_error env with
  | Some e => (Raise e, emit w (failure_event task_id e))
  | None =>
      let w2 := emit (mark task_id "running" None w) (EvKickoff query) in
      match parse_step env (analysis_text env query) with
      | Ok v =>
          (Ok (task_return task_id v),
           emit (store task_id "completed" v w2) EvSessionClose)
      | Raise e =>
          (Raise e,
           emit (emit (mark task_id "failed" (Some (str_exc e)) w2)
                      (failure_event task_id e))
                EvSessionClose)
      end
  end.
Proof.
  unfold celery_app.analyze_document_task, celery_app.SessionLocal.
  destruct (SessionLocal_error env) as [e|]; [reflexivity|].
  unfold ret, try_finally, try_except. rewrite task_steps_eq. cbn zeta.
  destruct (parse_step env (analysis_text env query)) as [v|e]; [reflexivity|].
  unfold celery_app.on_exception, bind, try_except.
  rewrite update_analysis_status_eq. reflexivity.
Qed.

Hypothesis session_opens : SessionLocal_error env = None.

(** A run on the row [a], stored under its own id: the task's outcome, the
    database and the trace it leaves. *)
Lemma run_on_row w a :
  db w !! id a = Some a ->
  celery_app.analyze_document_task env (id a) file_path query user_id w =
  match parse_step env (analysis_text env query) with
  | Ok v =>
      (Ok (task_return (id a) v),
       mk_World (<[id a := completed_row a v (clock w)]> (db w))
                (users w) (fs w) (queue w) (clock w)
                (trace w ++ [EvCommit (running_row a); EvKickoff query;
                             EvCommit (completed_row a v (clock w));
                             EvSessionClose]))
  | Raise e =>
      (Raise e,
       mk_World (<[id a := failed_row a e (clock w)]> (db w))
                (users w) (fs w) (queue w) (clock w)
                (trace w ++ [EvCommit (running_row a); EvKickoff query;
                             EvCommit (failed_row a e (clock w));
                             failure_event (id a) e; EvSessionClose]))
  end.
Proof.
  intros Ha. rewrite analyze_document_task_eq, session_opens. cbn zeta.
  assert (Hmark : mark (id a) "running" None w = committed w (running_row a)).
  { unfold mark. rewrite Ha. reflexivity. }
  rewrite Hmark.
  destruct (parse_step env (analysis_text env query)) as [v|e].
  - unfold store, committed, emit, set_db. world_fields.
    change (id (running_row a)) with (id a). rewrite lookup_insert_eq.
    world_fields.
    change (id (result_row (running_row a) "completed" v (clock w)))
      with (id a).
    rewrite insert_insert_eq, <- !app_assoc. reflexivity.
  - unfold mark, committed, emit, set_db. world_fields.
    change (id (running_row a)) with (id a). rewrite lookup_insert_eq.
    world_fields. autorewrite with row.
    change (id (running_row a)) with (id a).
    rewrite insert_insert_eq, <- !app_assoc. reflexivity.
Qed.

(** A run for an identifier that has no row. *)
Lemma run_without_row task_id w :
  db w !! task_id = None ->
  celery_app.analyze_document_task env task_id file_path query user_id w =
  match parse_step env (analysis_text env query) with
  | Ok v =>
      (Ok (task_return task_id v),
       mk_World (db w) (users w) (fs w) (queue w) (clock w)
                (trace w ++ [EvKickoff query; EvSessionClose]))
  | Raise e =>
      (Raise e,
       mk_World (db w) (users w) (fs w) (queue w) (clock w)
                (trace w ++ [EvKickoff query; failure_event task_id e;
                             EvSessionClose]))
  end.
Proof.
  intros Hnone. rewrite analyze_document_task_eq, session_opens. cbn zeta.
  unfold mark. rewrite Hnone.
  destruct (parse_step env (analysis_text env query)) as [v|e].
  - unfold store, emit. world_fields. rewrite Hnone.
    world_fields. rewrite <- !app_assoc. reflexivity.
  - unfold mark, emit. world_fields. rewrite Hnone.
    world_fields. rewrite <- !app_assoc. reflexivity.
Qed.

(** The rows a run commits and the row it leaves: the running row, then
    the completed row or the failed row. *)
Lemma run_commits w a :
  db w !! id a = Some a ->
  let r := celery_app.analyze_document_task env (id a) file_path query
             user_id w in
  exists final,
    commits (trace r.2) = (commits (trace w) ++ [running_row a; final])%list
    /\ db r.2 !! id a = Some final
    /\ ((exists v, parse_step env (analysis_text env query) = Ok v
                   /\ final = completed_row a v (clock w))
        \/ (exists e, parse_step env (analysis_text env query) = Raise e
                      /\ final = failed_row a e (clock w))).
Proof.
  intros Ha r. subst r. rewrite (run_on_row w a Ha).
  destruct (parse_step env (analysis_text env query)) as [v|e].
  - exists (completed_row a v (clock w)). world_fields.
    rewrite commits_app, lookup_insert_eq.
    split; [reflexivity|]. split; [reflexivity|]. left. eauto.
  - exists (failed_row a e (clock w)). world_fields.
    rewrite commits_app, lookup_insert_eq.
    split; [reflexivity|]. split; [reflexivity|]. right. eauto.
Qed.

(** The path the handler of the task does take: an exception raised by
    step 3 (for one, json.loads exceeding the recursion limit) marks the
    row failed, with the message as error_message when it is not empty,
    then sends FAILURE to the queue and raises the same exception. *)
Lemma parse_failure_marks_failed w a e :
  db w !! id a = Some a ->
  parse_step env (analysis_text env query) = Raise e ->
  let r := celery_app.analyze_document_task env (id a) file_path query
             user_id w in
  r.1 = Raise e
  /\ db r.2 !! id a = Some (failed_row a e (clock w))
  /\ status (failed_row a e (clock w)) = "failed"
  /\ (str_exc e <> EmptyString ->
      error_message (failed_row a e (clock w)) = Some (str_exc e))
  /\ trace r.2
     = (trace w ++ [EvCommit (running_row a); EvKickoff query;
                    EvCommit (failed_row a e (clock w));
                    failure_event (id a) e; EvSessionClose])%list.
Proof.
  intros Ha Hp r. subst r. rewrite (run_on_row w a Ha), Hp.
  world_fields. rewrite lookup_insert_eq.
  split; [reflexivity|]. split; [reflexivity|].
  split; [apply status_status_row|]. split; [|reflexivity].
  intros Hne. unfold failed_row. autorewrite with row.
  destruct (str_exc e) as [|c s]; [congruence|reflexivity].
Qed.

End Task.

(** ** The analysis wrapper and a failing collaborator *)

(** C10. [run_crew_analysis] returns a string for every query, file path
    and world, and never raises: it returns the collaborator's own result
    when there is one, and when the collaborator raises [e] it returns
    [json.dumps({"error": str(e), "status": "failed"})]. The executor
    then behaves exactly as with a collaborator that returned that text:
    same outcome of the task, same database, same trace. *)
Theorem C10_run_crew_analysis_never_raises :
  forall (env : Env) (query file_path : string) (w : World),
    (exists s : string,
        main.run_crew_analysis env query file_path w
        = (Ok s, emit w (EvKickoff query))
        /\ (forall r, kickoff env query = Ok r -> s = r)
        /\ (forall e, kickoff env query = Raise e ->
            s = json_dumps env
                  (JObj [("error", JStr (str_exc e));
                         ("status", JStr "failed")])))
    /\ (forall e task_id user_id,
           kickoff env query = Raise e ->
           celery_app.analyze_document_task env task_id file_path query
                                            user_id w
           = celery_app.analyze_document_task
               (with_kickoff env
                  (fun _ => Ok (json_dumps env
                                  (JObj [("error", JStr (str_exc e));
                                         ("status", JStr "failed")]))))
               task_id file_path query user_id w).
Proof.
  intros env query file_path w. split.
  - exists (analysis_text env query). rewrite run_crew_analysis_eq.
    unfold analysis_text, error_payload.
    split; [reflexivity|].
    split; intros x Hx; rewrite Hx; reflexivity.
  - intros e task_id user_id He.
    rewrite !analyze_document_task_eq.
    unfold analysis_text, with_kickoff, parse_step, error_payload. cbn.
    rewrite He. reflexivity.
Qed.

(** A collaborator that raises, seen through the wrapper. *)
Lemma C10_witness :
  main.run_crew_analysis (Demo.env (fun _ => Raise (Exception "boom")))
    "Analyze this" "data/sample.pdf" (Demo.world [] 0)
  = (Ok (Demo.dumps (JObj [("error", JStr "boom"); ("status", JStr "failed")])),
     emit (Demo.world [] 0) (EvKickoff "Analyze this")).
Proof.
  destruct (C10_run_crew_analysis_never_raises
              (Demo.env (fun _ => Raise (Exception "boom")))
              "Analyze this" "data/sample.pdf" (Demo.world [] 0))
    as [[s [Hrun [_ Hs]]] _].
  rewrite Hrun. f_equal. f_equal. apply (Hs (Exception "boom")). reflexivity.
Defined.

(** C1 (what the code does when the collaborator raises). The exception
    never reaches the task: [run_crew_analysis] hands back the error
    payload as text, and when that text parses the task stores it as the
    result of a completed job, leaves error_message as it was, sends no
    FAILURE to the queue and returns normally. *)
Theorem C1_collaborator_failure_stored_as_completed :
  forall (env : Env) (file_path query : string) (user_id : option Z)
         (w : World) (a : AnalysisResult.t) (e : exc) (v : json),
    SessionLocal_error env = None ->
    db w !! id a = Some a ->
    kickoff env query = Raise e ->
    json_loads env (json_dumps env (error_payload e)) = Ok v ->
    (celery_app.analyze_document_task env (id a) file_path query user_id w).1
    = Ok (task_return (id a) v)
    /\ db (celery_app.analyze_document_task env (id a) file_path query
             user_id w).2 !! id a
       = Some (AnalysisResult.mk (id a) (AnalysisResult.user_id a)
                 (filename a) "completed"
                 v (error_message a) (created_at a) (Some (clock w)))
    /\ trace (celery_app.analyze_document_task env (id a) file_path query
                user_id w).2
       = (trace w ++ [EvCommit (running_row a); EvKickoff query;
                      EvCommit (completed_row a v (clock w));
                      EvSessionClose])%list.
Proof.
  intros env file_path query user_id w a e v Hs Ha Hk Hv.
  rewrite (run_on_row env file_path query user_id Hs w a Ha).
  unfold analysis_text, parse_step. rewrite Hk, Hv.
  cbn [fst snd db trace]. rewrite lookup_insert_eq. repeat split.
Qed.

Lemma C1_witness :
  (celery_app.analyze_document_task
     (Demo.env (fun _ => Raise (Exception "boom"))) "t1"
     "data/financial_document_t1.pdf" "Analyze this" None
     (Demo.world [Demo.pending] 5000)).1
  = Ok (task_return "t1" (JObj [("error", JStr "boom");
                                ("status", JStr "failed")]))
  /\ db (celery_app.analyze_document_task
           (Demo.env (fun _ => Raise (Exception "boom"))) "t1"
           "data/financial_document_t1.pdf" "Analyze this" None
           (Demo.world [Demo.pending] 5000)).2 !! "t1"
     = Some (Demo.row "t1" "completed"
               (JObj [("error", JStr "boom"); ("status", JStr "failed")])
               None (Some 5000)).
Proof.
  destruct (C1_collaborator_failure_stored_as_completed
              (Demo.env (fun _ => Raise (Exception "boom")))
              "data/financial_document_t1.pdf" "Analyze this" None
              (Demo.world [Demo.pending] 5000) Demo.pending
              (Exception "boom")
              (JObj [("error", JStr "boom"); ("status", JStr "failed")])
              eq_refl eq_refl eq_refl eq_refl) as [H1 [H2 _]].
  split; [exact H1 | exact H2].
Defined.

(** ** The executor and a missing row *)

(** C4 (what the code does when the row is missing). The task does not
    stop at step 1: it still calls the collaborator, and when the answer
    parses it returns the "completed" dictionary to the queue, with no
    FAILURE state; the database is the same before and after. *)
Theorem C4_missing_row_still_analysed :
  forall (env : Env) (task_id file_path query : string) (user_id : option Z)
         (w : World) (v : json),
    SessionLocal_error env = None ->
    db w !! task_id = None ->
    parse_step env (analysis_text env query) = Ok v ->
    celery_app.analyze_document_task env task_id file_path query user_id w
    = (Ok (task_return task_id v),
       mk_World (db w) (users w) (fs w) (queue w) (clock w)
                (trace w ++ [EvKickoff query; EvSessionClose])).
Proof.
  intros env task_id file_path query user_id w v Hs Hnone Hp.
  rewrite (run_without_row env file_path query user_id Hs task_id w Hnone), Hp.
  reflexivity.
Qed.

Lemma C4_witness :
  celery_app.analyze_document_task
    (Demo.env (fun _ => Ok (Demo.dumps Demo.buy)))
    "ghost" "data/financial_document_ghost.pdf" "Analyze this" None
    (Demo.world [Demo.pending] 5000)
  = (Ok (task_return "ghost" Demo.buy),
     mk_World (db (Demo.world [Demo.pending] 5000)) [] ∅ [] 5000
              [EvKickoff "Analyze this"; EvSessionClose]).
Proof.
  apply (C4_missing_row_still_analysed
           (Demo.env (fun _ => Ok (Demo.dumps Demo.buy)))
           "ghost" "data/financial_document_ghost.pdf" "Analyze this" None
           (Demo.world [Demo.pending] 5000));
    reflexivity.
Defined.

(** ** Status and result queries (main.py) *)

(** C5. [check_status] answers 404 when no row has the identifier;
    otherwise it returns the row's status with progress 0 for pending, 50
    for running, 100 for completed and 0 for failed, and leaves the world
    as it was. *)
Theorem C5_check_status_progress :
  forall (task_id : string) (w : World),
    (db w !! task_id = None ->
     main.check_status task_id w
     = (Raise (HTTPException 404 ("Task " +:+ task_id +:+ " not found")), w))
    /\ (forall a, db w !! task_id = Some a ->
        (status a = "pending" ->
         main.check_status task_id w
         = (Ok (schemas.mk_status task_id "pending" (Some 0)), w))
        /\ (status a = "running" ->
            main.check_status task_id w
            = (Ok (schemas.mk_status task_id "running" (Some 50)), w))
        /\ (status a = "completed" ->
            main.check_status task_id w
            = (Ok (schemas.mk_status task_id "completed" (Some 100)), w))
        /\ (status a = "failed" ->
            main.check_status task_id w
            = (Ok (schemas.mk_status task_id "failed" (Some 0)), w))).
Proof.
  intros task_id w. split.
  - intros Hnone. run_handler. rewrite Hnone. reflexivity.
  - intros a Ha.
    repeat split; intros Hst; run_handler; rewrite Ha, Hst; reflexivity.
Qed.

(** A status outside the four is refused by the response schema, and the
    handler answers 500. *)
Lemma check_status_other_status task_id w a :
  db w !! task_id = Some a ->
  schemas.status_pattern (status a) = false ->
  exists detail,
    main.check_status task_id w = (Raise (HTTPException 500 detail), w).
Proof.
  intros Ha Hst. eexists. run_handler. rewrite Ha.
  unfold schemas.AnalysisStatusResponse. rewrite Hst. reflexivity.
Qed.

Lemma C5_witness :
  main.check_status "t1" (Demo.world [Demo.running] 0)
  = (Ok (schemas.mk_status "t1" "running" (Some 50)),
     Demo.world [Demo.running] 0)
  /\ main.check_status "t2"
       (Demo.world [Demo.running] 0)
     = (Raise (HTTPException 404 "Task t2 not found"),
        Demo.world [Demo.running] 0).
Proof.
  destruct (C5_check_status_progress "t1"
              (Demo.world [Demo.running] 0))
    as [_ Hsome].
  destruct (C5_check_status_progress "t2"
              (Demo.world [Demo.running] 0))
    as [Hnone _].
  split.
  - apply (Hsome Demo.running); reflexivity.
  - apply Hnone. reflexivity.
Defined.




(** ** Submission (main.py) *)

(** C9. A submission whose filename is missing, empty, or does not end in
    ".pdf" (in any letter case) is rejected with HTTP 400, and the world is
    exactly as before: no file written, no user row, no job row, nothing
    queued. *)
Theorem C9_non_pdf_rejected :
  forall (env : Env) (file_id : string) (file : UploadFile) (query : string)
         (email : option string) (w : World),
    main.is_pdf (upload_filename file) = false ->
    main.submit_analysis env file_id file query email w
    = (Raise (HTTPException 400 "Only PDF files are supported"), w).
Proof.
  intros env file_id file query email w Hpdf.
  unfold main.submit_analysis, main.http_errors, try_except, bind.
  rewrite Hpdf. reflexivity.
Qed.

Lemma C9_witness :
  main.is_pdf (Some "report.docx") = false
  /\ main.submit_analysis (Demo.env (fun _ => Ok "null")) "t1"
       (mk_UploadFile (Some "report.docx") "PK") "Analyze this"
       (Some "a@example.com") (Demo.world [] 0)
     = (Raise (HTTPException 400 "Only PDF files are supported"),
        Demo.world [] 0).
Proof.
  split; [reflexivity|].
  apply (C9_non_pdf_rejected (Demo.env (fun _ => Ok "null")) "t1"
           (mk_UploadFile (Some "report.docx") "PK")).
  reflexivity.
Defined.

(** A PDF submission, for comparison: the file is written, the user and
    the pending job row are created and the job is queued. *)
Example submit_pdf_accepted :
  let r := main.submit_analysis (Demo.env (fun _ => Ok "null")) "t1"
             (mk_UploadFile (Some "Q3-Report.PDF") "%PDF-1.7") "  "
             (Some "a@example.com") (Demo.world [] 7) in
  r.1 = Ok (schemas.mk_request "t1" "pending"
              "Analysis submitted successfully. Use status endpoint to check progress."
              "/status/t1")
  /\ db r.2 !! "t1"
     = Some (AnalysisResult.mk "t1" (Some 1) "Q3-Report.PDF" "pending"
               JNull None 7 None)
  /\ fs r.2 !! "data/financial_document_t1.pdf" = Some "%PDF-1.7"
  /\ users r.2 = [User.mk 1 "a@example.com" 7]
  /\ queue r.2
     = [mk_queued "t1" "data/financial_document_t1.pdf"
          "Analyze this financial document comprehensively" (Some 1) 3600].
Proof. vm_compute. repeat split; reflexivity. Qed.

Example is_pdf_cases :
  main.is_pdf None = false
  /\ main.is_pdf (Some EmptyString) = false
  /\ main.is_pdf (Some "report.pdf.exe") = false
  /\ main.is_pdf (Some "pdf") = false
  /\ main.is_pdf (Some ".pdf") = true
  /\ main.is_pdf (Some "Annual Report.Pdf") = true.
Proof. repeat split. Qed.

(** ** The lifecycle of one job row *)

(** C2, as stated, fails: the update the executor makes on failure leaves
    completed_at NULL on a failed row, and so does a whole run whose step 3
    raises; and when a completed job is run again its row is running while
    completed_at is still set. *)
Lemma C2_counterexample :
  (status <$> db (crud.update_analysis_status "t1" "failed"
                    (Some "timed out") (Demo.world [Demo.running] 5000)).2
                 !! "t1" = Some "failed"
   /\ completed_at
        <$> db (crud.update_analysis_status "t1" "failed"
                  (Some "timed out") (Demo.world [Demo.running] 5000)).2
               !! "t1" = Some None)
  /\ (status <$> db Demo.failed_run !! "t1" = Some "failed"
      /\ completed_at <$> db Demo.failed_run !! "t1" = Some None)
  /\ In (Demo.row "t1" "running" Demo.buy None (Some 5000))
        (commits (trace Demo.second_run)).
Proof.
  split; [split; vm_compute; reflexivity|].
  split; [split; vm_compute; reflexivity|].
  vm_compute. left. reflexivity.
Qed.

(** C2, amended. completed_at is written on completion only: on every
    row, whatever its status and its completed_at, [update_analysis_status]
    sets completed_at to the current time when the new status is
    "completed" and leaves it as it was for every other status, "failed"
    included, and [update_analysis_result] always sets it. In a run of the
    executor the row is first committed as running with the completed_at
    it had, and then either as completed with completed_at set to the
    current time or as failed with the completed_at it had; so on a
    pending row without completed_at, completed_at is NULL while the row
    is running and when it is failed, and set when it is completed. *)
Theorem C2_completed_at_on_completion_only :
  forall (env : Env) (file_path query : string) (user_id : option Z)
         (w : World) (a : AnalysisResult.t),
    SessionLocal_error env = None ->
    db w !! id a = Some a ->
    (forall st msg, exists a',
        crud.update_analysis_status (id a) st msg w
        = (Ok (Some a'), committed w a')
        /\ completed_at a'
           = if String.eqb st "completed" then Some (clock w)
             else completed_at a)
    /\ (forall st v, exists a',
           crud.update_analysis_result (id a) st v w
           = (Ok (Some a'), committed w a')
           /\ completed_at a' = Some (clock w))
    /\ exists final,
        commits (trace (celery_app.analyze_document_task env (id a) file_path
                          query user_id w).2)
        = (commits (trace w) ++ [running_row a; final])%list
        /\ db (celery_app.analyze_document_task env (id a) file_path query
                 user_id w).2 !! id a = Some final
        /\ status (running_row a) = "running"
        /\ completed_at (running_row a) = completed_at a
        /\ ((status final = "completed"
             /\ completed_at final = Some (clock w))
            \/ (status final = "failed"
                /\ completed_at final = completed_at a))
        /\ (status a = "pending" -> completed_at a = None ->
            completed_at (running_row a) = None
            /\ (completed_at final = None <-> status final = "failed")).
Proof.
  intros env file_path query user_id w a Hs Ha.
  split; [|split].
  - intros st msg. exists (status_row a st msg (clock w)).
    split; [apply update_analysis_status_found, Ha|].
    autorewrite with row.
    destruct (String.eqb st "completed"); reflexivity.
  - intros st v. exists (result_row a st v (clock w)).
    split; [apply update_analysis_result_found, Ha|reflexivity].
  - destruct (run_commits env file_path query user_id Hs w a Ha)
      as [final [Hcommits [Hdb Hfinal]]].
    exists final. split; [exact Hcommits|]. split; [exact Hdb|].
    split; [reflexivity|]. split; [reflexivity|].
    destruct Hfinal as [[v [_ ->]]|[e [_ ->]]].
    + split; [left; split; reflexivity|]. intros _ Hc.
      split; [exact Hc|]. split; discriminate.
    + assert (Hfailed : status (failed_row a e (clock w)) = "failed"
                        /\ completed_at (failed_row a e (clock w))
                           = completed_at a).
      { unfold failed_row. autorewrite with row. split; reflexivity. }
      destruct Hfailed as [Hst Hcf].
      split; [right; split; assumption|]. intros _ Hc.
      split; [exact Hc|]. rewrite Hcf, Hst, Hc. split; reflexivity.
Qed.

Lemma C2_witness :
  exists final,
    commits (trace (Demo.run (Demo.env (fun _ => Ok (Demo.dumps Demo.buy)))
                             [Demo.pending] 5000))
    = [running_row Demo.pending; final]
    /\ status final = "completed"
    /\ completed_at final = Some 5000.
Proof.
  destruct (C2_completed_at_on_completion_only
              (Demo.env (fun _ => Ok (Demo.dumps Demo.buy)))
              "data/financial_document_t1.pdf" "Analyze this" None
              (Demo.world [Demo.pending] 5000) Demo.pending
              eq_refl eq_refl)
    as [_ [_ [final [Hcommits [Hdb _]]]]].
  exists final. split; [exact Hcommits|].
  assert (Hfinal : Some final = Some Demo.completed).
  { rewrite <- Hdb. vm_compute. reflexivity. }
  injection Hfinal as ->. split; reflexivity.
Defined.

(** C3, as stated, fails: on a completed row [update_analysis_status]
    accepts the status "pending" and writes it, and a second run of the
    task on a completed job commits the row as running again. *)
Lemma C3_counterexample :
  crud.update_analysis_status "t1" "pending" None
    (Demo.world [Demo.completed] 6000)
  = (Ok (Some (Demo.row "t1" "pending" Demo.buy None (Some 5000))),
     committed (Demo.world [Demo.completed] 6000)
               (Demo.row "t1" "pending" Demo.buy None (Some 5000)))
  /\ map status (Demo.completed :: commits (trace Demo.second_run))
     = ["completed"; "running"; "completed"].
Proof. split; vm_compute; reflexivity. Qed.

(** C3, amended. The store does not look at the current status: on an
    existing row, in whatever state, [update_analysis_status] and
    [update_analysis_result] write the status they are given, so nothing
    is rejected and nothing is a no-op. The order comes from the executor
    alone: one run commits the row as running and then exactly once more,
    as completed or as failed, so that a pending row goes pending, running,
    then completed or failed. *)
Theorem C3_status_order_within_a_run :
  forall (env : Env) (file_path query : string) (user_id : option Z)
         (w : World) (a : AnalysisResult.t),
    SessionLocal_error env = None ->
    db w !! id a = Some a ->
    (forall st msg, exists a',
        crud.update_analysis_status (id a) st msg w
        = (Ok (Some a'), committed w a')
        /\ status a' = st)
    /\ (forall st v, exists a',
           crud.update_analysis_result (id a) st v w
           = (Ok (Some a'), committed w a')
           /\ status a' = st)
    /\ exists final,
        commits (trace (celery_app.analyze_document_task env (id a) file_path
                          query user_id w).2)
        = (commits (trace w) ++ [running_row a; final])%list
        /\ db (celery_app.analyze_document_task env (id a) file_path query
                 user_id w).2 !! id a = Some final
        /\ (map status [a; running_row a; final]
            = [status a; "running"; "completed"]
            \/ map status [a; running_row a; final]
               = [status a; "running"; "failed"]).
Proof.
  intros env file_path query user_id w a Hs Ha.
  split; [|split].
  - intros st msg. exists (status_row a st msg (clock w)).
    split; [apply update_analysis_status_found, Ha|apply status_status_row].
  - intros st v. exists (result_row a st v (clock w)).
    split; [apply update_analysis_result_found, Ha|reflexivity].
  - destruct (run_commits env file_path query user_id Hs w a Ha)
      as [final [Hcommits [Hdb Hfinal]]].
    exists final. split; [exact Hcommits|]. split; [exact Hdb|].
    destruct Hfinal as [[v [_ ->]]|[e [_ ->]]].
    + left. reflexivity.
    + right. unfold failed_row. cbn [map]. autorewrite with row.
      reflexivity.
Qed.

Lemma C3_witness :
  exists final,
    commits (trace Demo.failed_run) = [running_row Demo.pending; final]
    /\ map status [Demo.pending; running_row Demo.pending; final]
       = ["pending"; "running"; "failed"].
Proof.
  destruct (C3_status_order_within_a_run Demo.deep_env
              "data/financial_document_t1.pdf" "Analyze this" None
              (Demo.world [Demo.pending] 5000) Demo.pending
              eq_refl eq_refl)
    as [_ [_ [final [Hcommits [Hdb _]]]]].
  exists final. split; [exact Hcommits|].
  assert (Hfinal : Some final
                   = Some (Demo.row "t1" "failed" JNull
                             (Some "maximum recursion depth exceeded while decoding a JSON array from a unicode string")
                             None)).
  { rewrite <- Hdb. vm_compute. reflexivity. }
  injection Hfinal as ->. reflexivity.
Defined.

(** C7, as stated, fails: a collaborator that returns the JSON text null
    leaves a completed row whose result is NULL, and the failure update
    with an empty exception message (the str of an exception raised
    without arguments) leaves a failed row whose error_message is NULL. *)
Lemma C7_counterexample :
  (status <$> db Demo.null_run !! "t1" = Some "completed"
   /\ result_json <$> db Demo.null_run !! "t1" = Some JNull)
  /\ (status <$> db (crud.update_analysis_status "t1" "failed" (Some EmptyString)
                       (Demo.world [Demo.running] 5000)).2 !! "t1"
      = Some "failed"
      /\ error_message
           <$> db (crud.update_analysis_status "t1" "failed" (Some EmptyString)
                     (Demo.world [Demo.running] 5000)).2 !! "t1"
         = Some None).
Proof. repeat split; vm_compute; reflexivity. Qed.

(** C7, amended. In a run of the executor on a row that has neither
    result nor error message, every committed state has a result only if
    its status is completed and an error message only if its status is
    failed. The running row has neither. A completed row holds what step 3
    produced (the parsed output, or the raw text wrapped in a dict) and no
    error message. A failed row holds no result, and the exception's
    message as error message when the message is not empty. *)
Theorem C7_result_and_error_within_a_run :
  forall (env : Env) (file_path query : string) (user_id : option Z)
         (w : World) (a : AnalysisResult.t),
    SessionLocal_error env = None ->
    db w !! id a = Some a ->
    result_json a = JNull ->
    error_message a = None ->
    exists final,
      commits (trace (celery_app.analyze_document_task env (id a) file_path
                        query user_id w).2)
      = (commits (trace w) ++ [running_row a; final])%list
      /\ db (celery_app.analyze_document_task env (id a) file_path query
               user_id w).2 !! id a = Some final
      /\ Forall (fun r =>
                   (result_json r <> JNull -> status r = "completed")
                   /\ (error_message r <> None -> status r = "failed"))
                [running_row a; final]
      /\ result_json (running_row a) = JNull
      /\ error_message (running_row a) = None
      /\ ((exists v, parse_step env (analysis_text env query) = Ok v
                     /\ status final = "completed"
                     /\ result_json final = v
                     /\ error_message final = None)
          \/ (exists e, parse_step env (analysis_text env query) = Raise e
                        /\ status final = "failed"
                        /\ result_json final = JNull
                        /\ error_message final
                           = if truthy (Some (str_exc e))
                             then Some (str_exc e) else None)).
Proof.
  intros env file_path query user_id w a Hs Ha Hr He.
  destruct (run_commits env file_path query user_id Hs w a Ha)
    as [final [Hcommits [Hdb Hfinal]]].
  exists final. split; [exact Hcommits|]. split; [exact Hdb|].
  assert (Hcases :
    (exists v, parse_step env (analysis_text env query) = Ok v
               /\ status final = "completed" /\ result_json final = v
               /\ error_message final = None)
    \/ (exists e, parse_step env (analysis_text env query) = Raise e
                  /\ status final = "failed" /\ result_json final = JNull
                  /\ error_message final
                     = if truthy (Some (str_exc e))
                       then Some (str_exc e) else None)).
  { destruct Hfinal as [[v [Hp ->]]|[e [Hp ->]]].
    - left. exists v. repeat split; [exact Hp | exact He].
    - right. exists e. split; [exact Hp|].
      unfold failed_row, status_row.
      destruct (truthy (Some (str_exc e))); cbn; rewrite ?Hr, ?He;
        repeat split. }
  split; [|split; [exact Hr|split; [exact He|exact Hcases]]].
  repeat constructor.
  - cbn. congruence.
  - cbn. congruence.
  - destruct Hcases as [[v [_ [Hst _]]]|[e [_ [_ [Hres _]]]]];
      [intros _; exact Hst | congruence].
  - destruct Hcases as [[v [_ [_ [_ Herr]]]]|[e [_ [Hst _]]]];
      [congruence | intros _; exact Hst].
Qed.

Lemma C7_witness :
  exists final,
    db (Demo.run (Demo.env (fun _ => Ok "stock looks fine"))
                 [Demo.pending] 5000) !! "t1"
    = Some final
    /\ status final = "completed"
    /\ result_json final = JObj [("raw_analysis", JStr "stock looks fine")]
    /\ error_message final = None.
Proof.
  destruct (C7_result_and_error_within_a_run
              (Demo.env (fun _ => Ok "stock looks fine"))
              "data/financial_document_t1.pdf" "Analyze this" None
              (Demo.world [Demo.pending] 5000) Demo.pending
              eq_refl eq_refl eq_refl eq_refl)
    as [final [_ [Hdb [_ [_ [_ Hcases]]]]]].
  exists final. split; [exact Hdb|].
  destruct Hcases as [[v [Hp [Hst [Hres Herr]]]]|[e [Hp _]]].
  - injection Hp as <-. split; [exact Hst|]. split; [exact Hres|exact Herr].
  - discriminate Hp.
Defined.

(** ** The retention sweeper (crud.py) *)

Lemma cutoff_in_range days now :
  sweepable days now ->
  datetime.timedelta days = Ok (crud.timedelta_days days)
  /\ datetime.sub now (crud.timedelta_days days)
     = Ok (now - crud.timedelta_days days).
Proof.
  intros [Hdays [Hlo Hhi]]. unfold datetime.timedelta, datetime.sub.
  rewrite (proj2 (Z.leb_le _ _) Hdays), (proj2 (Z.leb_le _ _) Hlo),
    (proj2 (Z.leb_le _ _) Hhi).
  split; reflexivity.
Qed.

Lemma cutoff_out_of_range days now :
  ~ sweepable days now ->
  exists e,
    match datetime.timedelta days with
    | Ok delta => datetime.sub now delta
    | Raise e' => Raise e'
    end = Raise e.
Proof.
  intros Hno. unfold datetime.timedelta.
  destruct (Z.leb_spec (Z.abs days) 999999999) as [Hdays|Hdays].
  - unfold datetime.sub.
    change (days * 86400 * 1000000) with (crud.timedelta_days days).
    destruct (Z.leb_spec 0 (now - crud.timedelta_days days)) as [Hlo|Hlo];
      [|eexists; reflexivity].
    destruct (Z.leb_spec (now - crud.timedelta_days days) datetime.max)
      as [Hhi|Hhi]; [|eexists; reflexivity].
    destruct Hno. split; [exact Hdays|]. split; assumption.
  - destruct (Z.leb (- 2147483648) days && Z.leb days 2147483647);
      eexists; reflexivity.
Qed.

Lemma delete_old_analyses_eq days w :
  sweepable days (clock w) ->
  crud.delete_old_analyses days w
  = (Ok (Z.of_nat
           (size (filter
                    (fun kv : string * AnalysisResult.t =>
                       crud.expired (clock w - crud.timedelta_days days) kv.2
                       = true) (db w)))),
     set_db w (filter
                 (fun kv : string * AnalysisResult.t =>
                    crud.expired (clock w - crud.timedelta_days days) kv.2
                    <> true) (db w))).
Proof.
  intros Hok. destruct (cutoff_in_range days (clock w) Hok) as [Hdelta Hsub].
  unfold crud.delete_old_analyses, bind, utcnow, lift.
  rewrite Hdelta, Hsub. reflexivity.
Qed.

(** Outside that range the date arithmetic raises before anything is read
    or deleted. *)
Lemma delete_old_analyses_overflow days w :
  ~ sweepable days (clock w) ->
  exists e, crud.delete_old_analyses days w = (Raise e, w).
Proof.
  intros Hno. destruct (cutoff_out_of_range days (clock w) Hno) as [e He].
  exists e. unfold crud.delete_old_analyses, bind, utcnow, lift.
  destruct (datetime.timedelta days) as [delta|e'].
  - rewrite He. reflexivity.
  - injection He as ->. reflexivity.
Qed.

Lemma expired_spec cutoff a :
  crud.expired cutoff a = true
  <-> exists t, completed_at a = Some t /\ t < cutoff.
Proof.
  unfold crud.expired. destruct (completed_at a) as [t|].
  - rewrite Z.ltb_lt. split; [eauto|]. intros [t' [[= <-] Hlt]]. exact Hlt.
  - split; [discriminate|]. intros [t [[=] _]].
Qed.

Lemma set_db_same w : set_db w (db w) = w.
Proof. destruct w; reflexivity. Qed.

(** Nothing to delete: the sweeper returns 0 and changes nothing. *)
Lemma sweep_nothing days w :
  sweepable days (clock w) ->
  (forall k a, db w !! k = Some a ->
               crud.expired (clock w - crud.timedelta_days days) a = false) ->
  crud.delete_old_analyses days w = (Ok 0, w).
Proof.
  intros Hok Hnone. rewrite (delete_old_analyses_eq _ _ Hok).
  assert (Hempty :
    filter (fun kv : string * AnalysisResult.t =>
              crud.expired (clock w - crud.timedelta_days days) kv.2 = true)
           (db w) = ∅).
  { apply map_empty. intros k. apply map_lookup_filter_None.
    destruct (db w !! k) as [a|] eqn:Hk; [right|left; reflexivity].
    intros x [= <-]. cbn. rewrite (Hnone k a Hk). discriminate. }
  rewrite Hempty, map_size_empty.
  rewrite map_filter_id.
  - rewrite set_db_same. reflexivity.
  - intros k a Hk. cbn. rewrite (Hnone k a Hk). discriminate.
Qed.

(** C8, as stated, fails: when the executor's first step marks a completed
    job running again, the row is running and still carries its
    completed_at, and the sweeper deletes it. *)
Lemma C8_counterexample :
  status <$> db (crud.update_analysis_status "t1" "running" None
                   (Demo.world [Demo.completed] 6000)).2 !! "t1"
  = Some "running"
  /\ (crud.delete_old_analyses 0
        (crud.update_analysis_status "t1" "running" None
           (Demo.world [Demo.completed] 6000)).2).1 = Ok 1
  /\ db (crud.delete_old_analyses 0
           (crud.update_analysis_status "t1" "running" None
              (Demo.world [Demo.completed] 6000)).2).2 !! "t1" = None.
Proof. repeat split; vm_compute; reflexivity. Qed.

(** C8, amended. For every threshold the date arithmetic accepts (the
    number of days is one [timedelta] takes and now minus the threshold is
    a datetime), the sweeper deletes all and only the rows whose
    completed_at precedes now minus the threshold, whatever their status:
    a row that has no completed_at is never deleted, however old it is,
    and a pending or running row is deleted only if it carries a
    completed_at that old. It returns the number of rows deleted, touches
    nothing else, and deletes nothing when run again or whenever no row is
    expirable. For every other threshold the sweeper raises the
    OverflowError of the date arithmetic and the world is unchanged. *)
Theorem C8_sweeper_deletes_by_completed_at :
  forall (days : Z) (w : World),
    (sweepable days (clock w) ->
     exists (n : Z) (w' : World),
       crud.delete_old_analyses days w = (Ok n, w')
       /\ (forall k a, db w !! k = Some a ->
             ((exists t, completed_at a = Some t
                         /\ t < clock w - crud.timedelta_days days) ->
              db w' !! k = None)
             /\ (~ (exists t, completed_at a = Some t
                              /\ t < clock w - crud.timedelta_days days) ->
                 db w' !! k = Some a))
       /\ (forall k, db w !! k = None -> db w' !! k = None)
       /\ (forall k a, db w !! k = Some a -> completed_at a = None ->
                       db w' !! k = Some a)
       /\ Z.of_nat (size (db w)) = n + Z.of_nat (size (db w'))
       /\ 0 <= n
       /\ (users w', fs w', queue w', clock w', trace w')
          = (users w, fs w, queue w, clock w, trace w)
       /\ crud.delete_old_analyses days w' = (Ok 0, w')
       /\ ((forall k a, db w !! k = Some a ->
              crud.expired (clock w - crud.timedelta_days days) a = false) ->
           n = 0 /\ w' = w))
    /\ (~ sweepable days (clock w) ->
        exists e, crud.delete_old_analyses days w = (Raise e, w)).
Proof.
  intros days w. split; [|apply delete_old_analyses_overflow].
  intros Hok. rewrite (delete_old_analyses_eq _ _ Hok).
  set (cutoff := clock w - crud.timedelta_days days).
  set (P := fun kv : string * AnalysisResult.t =>
              crud.expired cutoff kv.2 = true).
  eexists _, _. split; [reflexivity|].
  assert (Hkeep : forall k a, db w !! k = Some a ->
                    crud.expired cutoff a <> true ->
                    filter (fun kv => ~ P kv) (db w) !! k = Some a).
  { intros k a Hk Hne. apply map_lookup_filter_Some. split; [exact Hk|].
    exact Hne. }
  assert (Hdrop : forall k a, db w !! k = Some a ->
                    crud.expired cutoff a = true ->
                    filter (fun kv => ~ P kv) (db w) !! k = None).
  { intros k a Hk He. apply map_lookup_filter_None. right.
    intros x Hx. rewrite Hk in Hx. injection Hx as <-.
    intros Hn. apply Hn. exact He. }
  cbn [db users fs queue clock trace set_db].
  split; [|split; [|split; [|split; [|split; [|split; [|split]]]]]].
  - intros k a Hk. split.
    + intros Hex. apply (Hdrop k a Hk). apply expired_spec. exact Hex.
    + intros Hnex. apply (Hkeep k a Hk). intros He. apply Hnex.
      apply expired_spec. exact He.
  - intros k Hk. apply map_lookup_filter_None. left. exact Hk.
  - intros k a Hk Hc. apply (Hkeep k a Hk). unfold crud.expired.
    rewrite Hc. discriminate.
  - rewrite <- (map_filter_union_complement P (db w)) at 1.
    rewrite map_size_disj_union by apply map_disjoint_filter_complement.
    rewrite Nat2Z.inj_add. reflexivity.
  - lia.
  - reflexivity.
  - apply sweep_nothing; [exact Hok|]. cbn [db clock set_db]. intros k a Hk.
    apply map_lookup_filter_Some in Hk as [_ Hne]. cbn in Hne.
    fold cutoff. destruct (crud.expired cutoff a); congruence.
  - intros Hnone.
    pose proof (sweep_nothing days w Hok Hnone) as Hsweep.
    rewrite (delete_old_analyses_eq _ _ Hok) in Hsweep.
    fold cutoff in Hsweep.
    injection Hsweep as Hn Hw. split; [exact Hn|exact Hw].
Qed.

(** Ten days after [datetime.min] every threshold up to ten days is
    accepted. *)
Lemma sweepable_days_of_ten d :
  0 <= d <= 10 -> sweepable d (crud.timedelta_days 10).
Proof.
  unfold sweepable, crud.timedelta_days. intros Hd.
  change datetime.max with 315537897599999999. lia.
Qed.

(** A sweep with a threshold of seven days, ten days after [datetime.min],
    and a sweep with a threshold the date arithmetic refuses. *)
Lemma C8_witness :
  (exists w',
     crud.delete_old_analyses 7
       (Demo.world Demo.sweep_rows (crud.timedelta_days 10))
     = (Ok 1, w')
     /\ db w' !! "old-done" = None
     /\ is_Some (db w' !! "new-done")
     /\ is_Some (db w' !! "old-failed")
     /\ is_Some (db w' !! "old-pending")
     /\ crud.delete_old_analyses 7 w' = (Ok 0, w'))
  /\ exists e,
       crud.delete_old_analyses 30
         (Demo.world Demo.sweep_rows (crud.timedelta_days 10))
       = (Raise e, Demo.world Demo.sweep_rows (crud.timedelta_days 10)).
Proof.
  split.
  - destruct (C8_sweeper_deletes_by_completed_at 7
                (Demo.world Demo.sweep_rows (crud.timedelta_days 10)))
      as [Hsweep _].
    destruct (Hsweep (sweepable_days_of_ten 7 ltac:(lia)))
      as [n [w' [Hrun [Hall [_ [Hnull [_ [_ [_ [Hagain _]]]]]]]]]].
    exists w'.
    assert (Hn : n = 1).
    { assert (Hfst : Ok n = Ok 1); [|injection Hfst as ->; reflexivity].
      change (Ok n) with ((Ok n, w').1). rewrite <- Hrun. vm_compute.
      reflexivity. }
    subst n. split; [exact Hrun|].
    split.
    { apply (Hall "old-done"
               (Demo.row "old-done" "completed" Demo.buy None (Some 1000))
               eq_refl).
      exists 1000. split; [reflexivity|]. vm_compute. reflexivity. }
    split.
    { exists (Demo.row "new-done" "completed" Demo.buy None
                       (Some (crud.timedelta_days 9))).
      apply (Hall "new-done" _ eq_refl).
      intros [t [[= <-] Hlt]]. vm_compute in Hlt. discriminate Hlt. }
    split.
    { eexists. apply (Hnull "old-failed" _ eq_refl). reflexivity. }
    split.
    { eexists. apply (Hnull "old-pending" _ eq_refl). reflexivity. }
    exact Hagain.
  - destruct (C8_sweeper_deletes_by_completed_at 30
                (Demo.world Demo.sweep_rows (crud.timedelta_days 10)))
      as [_ Hover].
    apply Hover. unfold sweepable. vm_compute. intros [_ [H _]]. apply H.
    reflexivity.
Defined.

(** * Further properties of the code *)

(** ** Users (crud.py) *)

Lemma get_or_create_user_eq email w :
  crud.get_or_create_user email w =
  match List.find (fun u => String.eqb (User.email u) email) (users w) with
  | Some user => (Ok user, w)
  | None =>
      (Ok (User.mk (1 + fold_right Z.max 0 (map User.id (users w)))
                   email (clock w)),
       set_users w
         (users w ++ [User.mk (1 + fold_right Z.max 0 (map User.id (users w)))
                              email (clock w)]))
  end.
Proof.
  unfold crud.get_or_create_user, bind, get_world.
  destruct (List.find _ (users w)); reflexivity.
Qed.

Lemma find_app {A} (p : A -> bool) l1 l2 :
  List.find p (l1 ++ l2)
  = match List.find p l1 with
    | Some x => Some x
    | None => List.find p l2
    end.
Proof.
  induction l1 as [|x l1 IH]; [reflexivity|].
  cbn. destruct (p x); [reflexivity|exact IH].
Qed.

Lemma max_id_bound (ids : list Z) x :
  In x ids -> x <= fold_right Z.max 0 ids.
Proof.
  induction ids as [|y ids IH]; [intros []|].
  intros [->|Hin]; cbn; [lia|]. specialize (IH Hin). lia.
Qed.

(** X1. [get_or_create_user] is a lookup-or-create keyed by email: it
    returns a user with the email asked for who is in the table afterwards,
    it removes nobody, it touches nothing but the users table, and a second
    call with the same email returns the same user and changes nothing. *)
Theorem X1_get_or_create_user_idempotent :
  forall (email : string) (w : World),
    exists u,
      (crud.get_or_create_user email w).1 = Ok u
      /\ User.email u = email
      /\ In u (users (crud.get_or_create_user email w).2)
      /\ (forall u', In u' (users w) ->
                     In u' (users (crud.get_or_create_user email w).2))
      /\ set_users (crud.get_or_create_user email w).2 (users w) = w
      /\ crud.get_or_create_user email (crud.get_or_create_user email w).2
         = (Ok u, (crud.get_or_create_user email w).2).
Proof.
  intros email w. rewrite get_or_create_user_eq.
  destruct (List.find _ (users w)) as [u|] eqn:Hfind.
  - exists u. cbn [fst snd].
    destruct (find_some _ _ Hfind) as [Hin Heq].
    apply String.eqb_eq in Heq.
    split; [reflexivity|]. split; [exact Heq|]. split; [exact Hin|].
    split; [auto|]. split; [destruct w; reflexivity|].
    rewrite get_or_create_user_eq, Hfind. reflexivity.
  - eexists. cbn [fst snd users set_users].
    split; [reflexivity|]. split; [reflexivity|].
    split; [apply in_or_app; right; left; reflexivity|].
    split; [intros u' Hu'; apply in_or_app; left; exact Hu'|].
    split; [destruct w; reflexivity|].
    rewrite get_or_create_user_eq. cbn [users set_users].
    rewrite find_app, Hfind. cbn. rewrite String.eqb_refl. reflexivity.
Qed.

Lemma X1_witness :
  users (crud.get_or_create_user "a@example.com"
           (crud.get_or_create_user "a@example.com" (Demo.world [] 7)).2).2
  = [User.mk 1 "a@example.com" 7].
Proof.
  destruct (X1_get_or_create_user_idempotent "a@example.com"
              (Demo.world [] 7)) as [u [_ [_ [_ [_ [_ Hagain]]]]]].
  rewrite Hagain. reflexivity.
Defined.

(** X2. [get_or_create_user] keeps the users table well formed: keys stay
    distinct and positive and emails stay distinct, because a row is added
    only when no row has the email, with a key above every key in use. *)
Theorem X2_get_or_create_user_keeps_users_distinct :
  forall (email : string) (w : World),
    users_ok (users w) ->
    users_ok (users (crud.get_or_create_user email w).2).
Proof.
  intros email w [Hids [Hemails Hpos]]. rewrite get_or_create_user_eq.
  destruct (List.find _ (users w)) as [u|] eqn:Hfind.
  - cbn [snd]. repeat split; assumption.
  - cbn [snd users set_users]. unfold users_ok. rewrite !map_app. cbn [map].
    cbn [User.id User.email].
    split; [|split].
    + apply NoDup_app. split; [exact Hids|]. split; [|apply NoDup_singleton].
      intros x Hx. rewrite list_elem_of_singleton. intros ->.
      apply list_elem_of_In, max_id_bound in Hx. lia.
    + apply NoDup_app. split; [exact Hemails|].
      split; [|apply NoDup_singleton].
      intros x Hx. rewrite list_elem_of_singleton. intros ->.
      apply list_elem_of_In, in_map_iff in Hx as [u [Hu Hin]].
      pose proof (find_none _ _ Hfind u Hin) as Hne. cbn in Hne.
      rewrite Hu, String.eqb_refl in Hne. discriminate.
    + apply Forall_app. split; [exact Hpos|].
      constructor; [|constructor]. cbn.
      assert (0 <= fold_right Z.max 0 (map User.id (users w))).
      { clear. induction (map User.id (users w)); cbn; lia. }
      lia.
Qed.

Lemma X2_witness :
  users_ok
    (users (crud.get_or_create_user "b@example.com"
              (set_users (Demo.world [] 7) [User.mk 4 "a@example.com" 1])).2).
Proof.
  apply (X2_get_or_create_user_keeps_users_distinct "b@example.com"
           (set_users (Demo.world [] 7) [User.mk 4 "a@example.com" 1])).
  split; [|split].
  - apply NoDup_singleton.
  - apply NoDup_singleton.
  - repeat constructor.
Defined.

(** ** Submission in closed form (main.py) *)

(** Every path of [submit_analysis]. *)
Lemma submit_analysis_eq env file_id file query email w :
  main.submit_analysis env file_id file query email w =
  if main.is_pdf (upload_filename file)
  then
    match file_write_error env (upload_path file_id) with
    | Some e => submit_failure file_id e w
    | None =>
        let w1 := set_fs w (<[upload_path file_id := upload_content file]>
                              (fs w)) in
        let user := (owner email w1).1 in
        let w2 := (owner email w1).2 in
        match db w2 !! file_id with
        | Some _ =>
            submit_failure file_id
              (Exception "UNIQUE constraint failed: analysis_results.id") w2
        | None =>
            let w3 := committed w2 (submitted_row file_id file user (clock w2)) in
            match apply_async_error env with
            | Some e => submit_failure file_id e w3
            | None =>
                (Ok (submitted_response file_id),
                 set_queue w3
                   (queue w3 ++ [submitted_message file_id query user]))
            end
        end
    end
  else (Raise (HTTPException 400 "Only PDF files are supported"), w).
Proof.
  unfold main.submit_analysis, main.http_errors, try_except, bind.
  fold (upload_path file_id).
  destruct (main.is_pdf (upload_filename file)); [|reflexivity].
  cbn [negb]. unfold ret at 1.
  destruct (file_write_error env (upload_path file_id)) as [e|].
  { unfold raise, submit_failure, modify. destruct e; reflexivity. }
  unfold modify at 1. cbn zeta.
  unfold owner.
  destruct (truthy email);
    [rewrite get_or_create_user_eq;
     destruct (List.find _ (users (set_fs w _)))|];
    cbv beta iota zeta delta
      [ret raise modify bind get_world crud.create_analysis crud.commit
       crud.get_analysis fst snd];
    (match goal with
     | |- context [db ?x !! file_id] => destruct (db x !! file_id)
     end; [reflexivity|]);
    (destruct (apply_async_error env) as [e|];
     [unfold submit_failure; destruct e; reflexivity | reflexivity]).
Qed.

Lemma owner_frame email w :
  set_users (owner email w).2 (users w) = w.
Proof.
  unfold owner. destruct (truthy email); [|destruct w; reflexivity].
  rewrite get_or_create_user_eq.
  destruct (List.find _ (users w)); destruct w; reflexivity.
Qed.

Lemma owner_fields email w :
  db (owner email w).2 = db w /\ fs (owner email w).2 = fs w
  /\ queue (owner email w).2 = queue w /\ clock (owner email w).2 = clock w
  /\ trace (owner email w).2 = trace w.
Proof.
  pose proof (owner_frame email w) as H.
  destruct (owner email w).2 as [d u f q c t], w as [d' u' f' q' c' t'].
  cbn in *. injection H as -> -> -> -> ->. repeat split.
Qed.

(** The owner is a user with the email given, present in the table
    afterwards, when there is an email; otherwise there is none. *)
Lemma owner_spec email w :
  match (owner email w).1 with
  | Some u => truthy email = true /\ Some (User.email u) = email
              /\ In u (users (owner email w).2)
  | None => truthy email = false
  end.
Proof.
  unfold owner. destruct (truthy email) eqn:Ht; [|reflexivity].
  destruct email as [e|]; [|discriminate Ht]. cbn [default].
  rewrite get_or_create_user_eq.
  destruct (List.find _ (users w)) as [u|] eqn:Hfind; cbn [fst snd].
  - destruct (find_some _ _ Hfind) as [Hin Heq].
    apply String.eqb_eq in Heq. rewrite Heq. repeat split. exact Hin.
  - cbn [users set_users User.email]. repeat split.
    apply in_or_app. right. left. reflexivity.
Qed.

(** ** Strings: strip, lower, endswith *)

Lemma append_nil y : EmptyString +:+ y = y.
Proof. reflexivity. Qed.

Lemma append_cons c s y : String c s +:+ y = String c (s +:+ y).
Proof. reflexivity. Qed.

Lemma lstrip_eq s :
  lstrip s = match space_bytes s with
             | O => s
             | S _ => lstrip (skip (space_bytes s) s)
             end.
Proof.
  destruct s as [|a [|b [|c s3]]]; cbn [lstrip space_bytes skip];
    try reflexivity;
    destruct (is_space a); cbn [skip]; try reflexivity;
    destruct (is_space2 a b); cbn [skip]; try reflexivity;
    destruct (is_space3 a b c); reflexivity.
Qed.

Lemma space_bytes_le s : (space_bytes s <= String.length s)%nat.
Proof.
  destruct s as [|a [|b [|c s3]]]; cbn [space_bytes String.length];
    try lia;
    destruct (is_space a); try lia;
    destruct (is_space2 a b); try lia;
    destruct (is_space3 a b c); lia.
Qed.

Lemma skip_length n : forall s,
  String.length (skip n s) = (String.length s - n)%nat.
Proof.
  induction n as [|n IH]; intros [|a s]; cbn [skip String.length];
    try lia. apply IH.
Qed.

Lemma skip_app e t : skip (String.length e) (e +:+ t) = t.
Proof.
  induction e as [|a e IH].
  - rewrite append_nil. destruct t; reflexivity.
  - rewrite append_cons. cbn [String.length skip]. exact IH.
Qed.

Lemma space_bytes_app p t :
  space_bytes p <> 0%nat -> space_bytes (p +:+ t) = space_bytes p.
Proof.
  destruct p as [|a [|b [|c p3]]]; rewrite ?append_cons, ?append_nil;
    cbn [space_bytes]; intros H;
    try (destruct (is_space a); [reflexivity|]);
    try (destruct (is_space2 a b); [reflexivity|]);
    try (destruct (is_space3 a b c); [reflexivity|]);
    destruct H; reflexivity.
Qed.

Lemma lstrip_no_leading_space s : starts_with_space (lstrip s) = false.
Proof.
  remember (String.length s) as n eqn:Hn. revert s Hn.
  induction n as [n IH] using lt_wf_ind. intros s Hn.
  rewrite lstrip_eq. destruct (space_bytes s) as [|k] eqn:Hk.
  - unfold starts_with_space. rewrite Hk. reflexivity.
  - apply (IH (String.length (skip (S k) s))); [|reflexivity].
    pose proof (space_bytes_le s). rewrite skip_length. lia.
Qed.

Lemma lstrip_fixed s : starts_with_space s = false -> lstrip s = s.
Proof.
  unfold starts_with_space. intros H. rewrite lstrip_eq.
  destruct (space_bytes s); [reflexivity|discriminate H].
Qed.

(** A whitespace character in front does not change what is left. *)
Lemma lstrip_space_app e t :
  is_space_char e = true -> lstrip (e +:+ t) = lstrip t.
Proof.
  unfold is_space_char, starts_with_space. intros H.
  apply andb_true_iff in H as [Hpos Hlen].
  apply Nat.eqb_eq in Hlen.
  assert (Hne : space_bytes e <> 0%nat).
  { intros H0. rewrite H0 in Hpos. discriminate Hpos. }
  rewrite lstrip_eq, (space_bytes_app _ _ Hne).
  destruct (space_bytes e) as [|k]; [congruence|].
  rewrite Hlen, skip_app. reflexivity.
Qed.

Lemma rstrip_cons a s :
  rstrip (String a s)
  = if String.eqb (lstrip (String a s)) EmptyString
    then EmptyString
    else String a (rstrip s).
Proof. reflexivity. Qed.

Lemma ends_with_space_cons a s :
  ends_with_space (String a s)
  = is_space_char (String a s) || ends_with_space s.
Proof. reflexivity. Qed.

(** What [rstrip] removes is whitespace only. *)
Lemma rstrip_split s :
  exists t, s = rstrip s +:+ t /\ lstrip t = EmptyString.
Proof.
  induction s as [|a s [t [Hs Ht]]]; [exists EmptyString; split; reflexivity|].
  rewrite rstrip_cons.
  destruct (String.eqb (lstrip (String a s)) EmptyString) eqn:He.
  - exists (String a s). split; [reflexivity|]. apply String.eqb_eq, He.
  - exists t. rewrite append_cons, <- Hs. split; [reflexivity|exact Ht].
Qed.

Lemma rstrip_no_trailing_space s : ends_with_space (rstrip s) = false.
Proof.
  induction s as [|a s IH]; [reflexivity|].
  rewrite rstrip_cons.
  destruct (String.eqb (lstrip (String a s)) EmptyString) eqn:He;
    [reflexivity|].
  rewrite ends_with_space_cons, IH, orb_false_r.
  destruct (is_space_char (String a (rstrip s))) eqn:Hc; [|reflexivity].
  destruct (rstrip_split s) as [t [Hs Ht]].
  pose proof (lstrip_space_app _ t Hc) as Hl.
  rewrite append_cons, <- Hs, Ht in Hl. rewrite Hl in He. discriminate He.
Qed.

Lemma rstrip_keeps_first s :
  starts_with_space s = false -> starts_with_space (rstrip s) = false.
Proof.
  unfold starts_with_space. intros H.
  destruct (space_bytes (rstrip s)) as [|k] eqn:Hk; [reflexivity|].
  destruct (rstrip_split s) as [t [Hs _]].
  assert (Hsame : space_bytes (rstrip s +:+ t) = space_bytes (rstrip s))
    by (apply space_bytes_app; lia).
  rewrite <- Hs, Hk in Hsame. rewrite Hsame in H. discriminate H.
Qed.

Lemma strip_no_space_at_ends s :
  starts_with_space (strip s) = false /\ ends_with_space (strip s) = false.
Proof.
  unfold strip. split.
  - apply rstrip_keeps_first, lstrip_no_leading_space.
  - apply rstrip_no_trailing_space.
Qed.

Lemma ends_with_space_skip n : forall s,
  ends_with_space (skip n s) = true -> ends_with_space s = true.
Proof.
  induction n as [|n IH]; intros [|a s] H; cbn [skip] in H;
    try exact H.
  rewrite ends_with_space_cons, (IH s H). apply orb_true_r.
Qed.

(** A text of whitespace only ends with a whitespace character. *)
Lemma blank_ends_with_space s :
  s <> EmptyString -> lstrip s = EmptyString -> ends_with_space s = true.
Proof.
  remember (String.length s) as n eqn:Hn. revert s Hn.
  induction n as [n IH] using lt_wf_ind. intros s Hn Hne Hblank.
  rewrite lstrip_eq in Hblank.
  destruct (space_bytes s) as [|k] eqn:Hk; [congruence|].
  pose proof (space_bytes_le s) as Hle.
  pose proof (skip_length (S k) s) as Hlen.
  destruct (skip (S k) s) as [|a' r] eqn:Hskip.
  - cbn [String.length] in Hlen.
    destruct s as [|a s1]; [congruence|].
    rewrite ends_with_space_cons. apply orb_true_iff. left.
    unfold is_space_char, starts_with_space. rewrite Hk.
    apply andb_true_iff. split; [reflexivity|]. apply Nat.eqb_eq. lia.
  - apply (ends_with_space_skip (S k)). rewrite Hskip.
    apply (IH (String.length (String a' r))).
    + rewrite Hlen. lia.
    + reflexivity.
    + discriminate.
    + exact Hblank.
Qed.

Lemma rstrip_fixed s : ends_with_space s = false -> rstrip s = s.
Proof.
  induction s as [|a s IH]; [reflexivity|]. intros H.
  rewrite rstrip_cons.
  destruct (String.eqb (lstrip (String a s)) EmptyString) eqn:He.
  - apply String.eqb_eq in He.
    rewrite (blank_ends_with_space (String a s)) in H;
      [discriminate H|discriminate|exact He].
  - rewrite ends_with_space_cons in H. apply orb_false_iff in H as [_ H].
    rewrite (IH H). reflexivity.
Qed.

Lemma strip_idempotent s : strip (strip s) = strip s.
Proof.
  destruct (strip_no_space_at_ends s) as [Hl Hr].
  unfold strip at 1. rewrite (lstrip_fixed _ Hl). apply rstrip_fixed, Hr.
Qed.

Lemma normalized_query_clean query :
  normalized_query query <> EmptyString
  /\ starts_with_space (normalized_query query) = false
  /\ ends_with_space (normalized_query query) = false
  /\ normalized_query (normalized_query query) = normalized_query query.
Proof.
  unfold normalized_query.
  destruct (String.eqb (strip query) "") eqn:He.
  - repeat split; discriminate.
  - apply String.eqb_neq in He.
    destruct (strip_no_space_at_ends query) as [Hl Hr].
    rewrite strip_idempotent.
    apply String.eqb_neq in He. rewrite He.
    apply String.eqb_neq in He. repeat split; assumption.
Qed.

Lemma lower_app s t : lower (s +:+ t) = lower s +:+ lower t.
Proof.
  induction s as [|c s IH]; [reflexivity|].
  rewrite append_cons. simpl lower. rewrite append_cons, IH. reflexivity.
Qed.

Lemma lower_split s : forall x y,
  lower s = x +:+ y ->
  exists s1 s2, s = s1 +:+ s2 /\ lower s1 = x /\ lower s2 = y.
Proof.
  induction s as [|c s IH]; intros x y H.
  - destruct x as [|d x]; [|discriminate H].
    rewrite append_nil in H. simpl in H.
    exists EmptyString, EmptyString. rewrite <- H. repeat split.
  - destruct x as [|d x].
    + rewrite append_nil in H.
      exists EmptyString, (String c s). repeat split. exact H.
    + rewrite append_cons in H. simpl lower in H. injection H as Hd Hrest.
      destruct (IH x y Hrest) as [s1 [s2 [Hs [Hx Hy]]]].
      exists (String c s1), s2. rewrite append_cons. simpl lower.
      rewrite Hx, Hd, <- Hs. repeat split. exact Hy.
Qed.

Lemma substring_all s : substring 0 (String.length s) s = s.
Proof.
  induction s as [|c s IH]; [reflexivity|]. simpl. rewrite IH. reflexivity.
Qed.

Lemma substring_suffix b s :
  substring (String.length b) (String.length s) (b +:+ s) = s.
Proof.
  induction b as [|c b IH]; [apply substring_all|].
  rewrite append_cons. simpl. exact IH.
Qed.

Lemma length_app s t :
  String.length (s +:+ t) = (String.length s + String.length t)%nat.
Proof.
  induction s as [|c s IH]; [reflexivity|].
  rewrite append_cons. simpl. rewrite IH. reflexivity.
Qed.

Lemma substring_decomp s : forall k,
  (k <= String.length s)%nat ->
  exists b, s = b +:+ substring k (String.length s - k) s.
Proof.
  induction s as [|c s IH]; intros k Hk.
  - exists EmptyString. destruct k; reflexivity.
  - destruct k as [|k].
    + exists EmptyString. rewrite Nat.sub_0_r, substring_all. reflexivity.
    + simpl in Hk. destruct (IH k ltac:(lia)) as [b Hb].
      exists (String c b). rewrite append_cons. simpl. rewrite <- Hb.
      reflexivity.
Qed.

Lemma endswith_spec s suffix :
  endswith s suffix = true <-> exists b, s = b +:+ suffix.
Proof.
  unfold endswith. rewrite andb_true_iff, Nat.leb_le, String.eqb_eq. split.
  - intros [Hle Hsub].
    destruct (substring_decomp s (String.length s - String.length suffix)
                ltac:(lia)) as [b Hb].
    replace (String.length s - (String.length s - String.length suffix))%nat
      with (String.length suffix) in Hb by lia.
    rewrite Hsub in Hb. eauto.
  - intros [b ->]. rewrite length_app. split; [lia|].
    replace (String.length b + String.length suffix - String.length suffix)%nat
      with (String.length b) by lia.
    apply substring_suffix.
Qed.

(** ** Submission (main.py), further *)

(** X3. The format check accepts exactly the filenames that end in a
    four-character extension whose lower-case form is ".pdf": letter case
    of the extension does not matter, a missing or empty filename and any
    other ending are refused. *)
Theorem X3_is_pdf_extension :
  forall (filename : option string),
    main.is_pdf filename = true
    <-> exists base ext,
          filename = Some (base +:+ ext) /\ lower ext = ".pdf".
Proof.
  intros filename. split.
  - destruct filename as [[|c s]|]; try discriminate. cbn [main.is_pdf].
    intros H. apply endswith_spec in H as [b Hb].
    destruct (lower_split _ _ _ Hb) as [s1 [s2 [Hs [_ Hext]]]].
    exists s1, s2. rewrite Hs. split; [reflexivity|exact Hext].
  - intros [base [ext [-> Hext]]].
    assert (Hends : endswith (lower (base +:+ ext)) ".pdf" = true).
    { apply endswith_spec. exists (lower base). rewrite lower_app, Hext.
      reflexivity. }
    destruct (base +:+ ext) as [|c s] eqn:Hs; [|exact Hends].
    discriminate Hends.
Qed.

(** X4. An accepted submission (PDF filename, the upload can be written,
    the identifier is new, the broker takes the message) returns the
    identifier with status pending and the status URL, writes the upload
    under the identifier's path, commits exactly one new row, pending and
    without result, error or completed_at, and appends exactly one message
    to the queue, with an expiry of 3600 seconds; the owner of the row is
    the user with the email given, or nobody when no email is given. *)
Theorem X4_submit_accepted :
  forall (env : Env) (file_id : string) (file : UploadFile) (query : string)
         (email : option string) (w : World),
    main.is_pdf (upload_filename file) = true ->
    file_write_error env (upload_path file_id) = None ->
    apply_async_error env = None ->
    db w !! file_id = None ->
    exists user,
      (main.submit_analysis env file_id file query email w).1
      = Ok (submitted_response file_id)
      /\ db (main.submit_analysis env file_id file query email w).2
         = <[file_id := submitted_row file_id file user (clock w)]> (db w)
      /\ fs (main.submit_analysis env file_id file query email w).2
         = <[upload_path file_id := upload_content file]> (fs w)
      /\ queue (main.submit_analysis env file_id file query email w).2
         = (queue w ++ [submitted_message file_id query user])%list
      /\ trace (main.submit_analysis env file_id file query email w).2
         = (trace w ++ [EvCommit (submitted_row file_id file user (clock w))])%list
      /\ match user with
         | Some u =>
             Some (User.email u) = email
             /\ In u (users (main.submit_analysis env file_id file query
                               email w).2)
         | None => truthy email = false
         end.
Proof.
  intros env file_id file query email w Hpdf Hwrite Hasync Hfresh.
  rewrite submit_analysis_eq, Hpdf, Hwrite, Hasync. cbn zeta.
  set (w1 := set_fs w _).
  destruct (owner_fields email w1) as [Hdb [Hfs [Hq [Hclock Htrace]]]].
  pose proof (owner_spec email w1) as Hspec.
  rewrite Hdb. change (db w1) with (db w). rewrite Hfresh.
  exists (owner email w1).1. cbn [fst snd].
  unfold committed, emit, set_db, set_queue. world_fields.
  rewrite Hdb, Hfs, Hq, Hclock, Htrace.
  split; [reflexivity|]. split; [reflexivity|]. split; [reflexivity|].
  split; [reflexivity|]. split; [reflexivity|].
  destruct (owner email w1).1 as [u|]; [|exact Hspec].
  destruct Hspec as [_ [Hemail Hin]]. split; assumption.
Qed.

Lemma X4_witness :
  (main.submit_analysis (Demo.env (fun _ => Ok "null")) "t1"
     (mk_UploadFile (Some "Q3-Report.PDF") "%PDF-1.7") "  brief  " None
     (Demo.world [] 7)).1
  = Ok (submitted_response "t1").
Proof.
  destruct (X4_submit_accepted (Demo.env (fun _ => Ok "null")) "t1"
              (mk_UploadFile (Some "Q3-Report.PDF") "%PDF-1.7") "  brief  "
              None (Demo.world [] 7) eq_refl eq_refl eq_refl eq_refl)
    as [user [H _]].
  exact H.
Defined.

(** X5. When the broker refuses the message, the submission answers 500
    with the broker's message and removes the upload, but the row it has
    already committed stays in the store as pending, and nothing is on the
    queue for it. *)
Theorem X5_submit_enqueue_failure_leaves_pending_row :
  forall (env : Env) (file_id : string) (file : UploadFile) (query : string)
         (email : option string) (w : World) (e : exc),
    main.is_pdf (upload_filename file) = true ->
    file_write_error env (upload_path file_id) = None ->
    db w !! file_id = None ->
    apply_async_error env = Some e ->
    (forall c d, e <> HTTPException c d) ->
    (main.submit_analysis env file_id file query email w).1
    = Raise (HTTPException 500 ("Error submitting analysis: " +:+ str_exc e))
    /\ fs (main.submit_analysis env file_id file query email w).2
          !! upload_path file_id = None
    /\ (exists row,
          db (main.submit_analysis env file_id file query email w).2 !! file_id
          = Some row
          /\ status row = "pending" /\ id row = file_id)
    /\ queue (main.submit_analysis env file_id file query email w).2 = queue w.
Proof.
  intros env file_id file query email w e Hpdf Hwrite Hfresh Hasync Hnot.
  rewrite submit_analysis_eq, Hpdf, Hwrite, Hasync. cbn zeta.
  set (w1 := set_fs w _).
  destruct (owner_fields email w1) as [Hdb [Hfs [Hq [Hclock Htrace]]]].
  rewrite Hdb. change (db w1) with (db w). rewrite Hfresh.
  unfold submit_failure.
  destruct e as [c d|m|m]; [exfalso; apply (Hnot c d); reflexivity| |];
    cbn [fst snd]; unfold committed, emit, set_db, set_fs; world_fields;
    rewrite lookup_delete_eq, lookup_insert_eq, Hq;
    (split; [reflexivity|]); (split; [reflexivity|]);
    (split; [eexists; repeat split|reflexivity]).
Qed.

Lemma X5_witness :
  (main.submit_analysis
     (mk_Env (fun _ => Ok "null") Demo.loads Demo.dumps None (fun _ => None)
             (Some (Exception "broker unreachable")))
     "t1" (mk_UploadFile (Some "report.pdf") "%PDF-1.7") "Analyze this" None
     (Demo.world [] 7)).1
  = Raise (HTTPException 500 "Error submitting analysis: broker unreachable").
Proof.
  destruct (X5_submit_enqueue_failure_leaves_pending_row
              (mk_Env (fun _ => Ok "null") Demo.loads Demo.dumps None
                      (fun _ => None) (Some (Exception "broker unreachable")))
              "t1" (mk_UploadFile (Some "report.pdf") "%PDF-1.7")
              "Analyze this" None (Demo.world [] 7)
              (Exception "broker unreachable")
              eq_refl eq_refl eq_refl eq_refl
              ltac:(intros c d; discriminate)) as [H _].
  exact H.
Defined.

(** X6. When the upload cannot be written, the submission answers 500 with
    the error's message and nothing is persisted: no row, no user, no
    message on the queue, and no file under the identifier's path. *)
Theorem X6_submit_write_failure_persists_nothing :
  forall (env : Env) (file_id : string) (file : UploadFile) (query : string)
         (email : option string) (w : World) (e : exc),
    main.is_pdf (upload_filename file) = true ->
    file_write_error env (upload_path file_id) = Some e ->
    (forall c d, e <> HTTPException c d) ->
    main.submit_analysis env file_id file query email w
    = (Raise (HTTPException 500 ("Error submitting analysis: " +:+ str_exc e)),
       set_fs w (delete (upload_path file_id) (fs w))).
Proof.
  intros env file_id file query email w e Hpdf Hwrite Hnot.
  rewrite submit_analysis_eq, Hpdf, Hwrite. unfold submit_failure.
  destruct e as [c d|m|m]; [exfalso; apply (Hnot c d)|..]; reflexivity.
Qed.

Lemma X6_witness :
  main.submit_analysis
    (mk_Env (fun _ => Ok "null") Demo.loads Demo.dumps None
            (fun _ => Some (Exception "No space left on device")) None)
    "t1" (mk_UploadFile (Some "report.pdf") "%PDF-1.7") "Analyze this"
    (Some "a@example.com") (Demo.world [] 7)
  = (Raise (HTTPException 500
              "Error submitting analysis: No space left on device"),
     set_fs (Demo.world [] 7)
            (delete (upload_path "t1") (fs (Demo.world [] 7)))).
Proof.
  apply (X6_submit_write_failure_persists_nothing
           (mk_Env (fun _ => Ok "null") Demo.loads Demo.dumps None
                   (fun _ => Some (Exception "No space left on device")) None)
           "t1" (mk_UploadFile (Some "report.pdf") "%PDF-1.7") "Analyze this"
           (Some "a@example.com") (Demo.world [] 7)
           (Exception "No space left on device")).
  - reflexivity.
  - reflexivity.
  - intros c d. discriminate.
Defined.

(** X7. The query an accepted submission hands to the executor is never
    empty and never starts or ends with a character Python counts as
    whitespace, the Unicode spaces included: a query of whitespace only is
    replaced by the default instruction, any other query is stripped; and
    normalising a normalised query changes nothing. *)
Theorem X7_queued_query_is_normalized :
  forall (env : Env) (file_id : string) (file : UploadFile) (query : string)
         (email : option string) (w : World),
    main.is_pdf (upload_filename file) = true ->
    file_write_error env (upload_path file_id) = None ->
    apply_async_error env = None ->
    db w !! file_id = None ->
    exists m,
      queue (main.submit_analysis env file_id file query email w).2
      = (queue w ++ [m])%list
      /\ q_task_id m = file_id
      /\ q_file_path m = upload_path file_id
      /\ q_query m <> EmptyString
      /\ starts_with_space (q_query m) = false
      /\ ends_with_space (q_query m) = false
      /\ (strip query <> EmptyString -> q_query m = strip query)
      /\ (strip query = EmptyString ->
          q_query m = "Analyze this financial document comprehensively")
      /\ normalized_query (q_query m) = q_query m.
Proof.
  intros env file_id file query email w Hpdf Hwrite Hasync Hfresh.
  rewrite submit_analysis_eq, Hpdf, Hwrite, Hasync. cbn zeta.
  set (w1 := set_fs w _).
  destruct (owner_fields email w1) as [Hdb [Hfs [Hq [Hclock Htrace]]]].
  rewrite Hdb. change (db w1) with (db w). rewrite Hfresh.
  eexists. cbn [fst snd].
  unfold committed, emit, set_db, set_queue. world_fields. rewrite Hq.
  split; [reflexivity|].
  cbn [submitted_message q_task_id q_file_path q_query].
  destruct (normalized_query_clean query) as [Hne [Hl [Hr Hidem]]].
  split; [reflexivity|]. split; [reflexivity|]. split; [exact Hne|].
  split; [exact Hl|]. split; [exact Hr|].
  split; [|split; [|exact Hidem]]; intros Hs; unfold normalized_query.
  - apply String.eqb_neq in Hs. rewrite Hs. reflexivity.
  - rewrite Hs. reflexivity.
Qed.

Lemma X7_witness :
  exists m,
    queue (main.submit_analysis (Demo.env (fun _ => Ok "null")) "t1"
             (mk_UploadFile (Some "report.pdf") "%PDF-1.7")
             (Demo.nbsp +:+ " Is the margin improving? "
              +:+ Demo.ideographic_space)
             None (Demo.world [] 7)).2
    = [m]
    /\ q_query m = "Is the margin improving?".
Proof.
  destruct (X7_queued_query_is_normalized (Demo.env (fun _ => Ok "null")) "t1"
              (mk_UploadFile (Some "report.pdf") "%PDF-1.7")
              (Demo.nbsp +:+ " Is the margin improving? "
               +:+ Demo.ideographic_space)
              None (Demo.world [] 7)
              eq_refl eq_refl eq_refl eq_refl)
    as [m [Hq [_ [_ [_ [_ [_ [Hstrip _]]]]]]]].
  exists m. split; [exact Hq|].
  rewrite Hstrip; [reflexivity|]. vm_compute. discriminate.
Defined.

(** A query of Unicode spaces only is blank. *)
Example normalized_query_blank :
  normalized_query (Demo.nbsp +:+ " " +:+ Demo.ideographic_space)
  = "Analyze this financial document comprehensively".
Proof. reflexivity. Qed.

(** ** The store (crud.py), further *)



Lemma keyed_insert d k a : keyed d -> id a = k -> keyed (<[k := a]> d).
Proof.
  intros Hd Hk k' a' H. destruct (decide (k = k')) as [<-|Hne].
  - rewrite lookup_insert_eq in H. injection H as <-. exact Hk.
  - rewrite lookup_insert_ne in H by exact Hne. exact (Hd k' a' H).
Qed.

Lemma mark_db task_id status msg w :
  db (mark task_id status msg w)
  = match db w !! task_id with
    | Some a => <[id a := status_row a status msg (clock w)]> (db w)
    | None => db w
    end.
Proof.
  unfold mark. destruct (db w !! task_id); [|reflexivity].
  unfold committed. world_fields. cbn [emit set_db db].
  rewrite id_status_row. reflexivity.
Qed.

Lemma store_db task_id status v w :
  db (store task_id status v w)
  = match db w !! task_id with
    | Some a => <[id a := result_row a status v (clock w)]> (db w)
    | None => db w
    end.
Proof. unfold store. destruct (db w !! task_id); reflexivity. Qed.

Lemma mark_keyed task_id status msg w :
  keyed (db w) -> keyed (db (mark task_id status msg w)).
Proof.
  intros Hk. rewrite mark_db. destruct (db w !! task_id) as [a|]; [|exact Hk].
  apply keyed_insert; [exact Hk|apply id_status_row].
Qed.

Lemma run_db env task_id file_path query user_id w :
  db (celery_app.analyze_document_task env task_id file_path query user_id w).2
  = match SessionLocal_error env with
    | Some _ => db w
    | None =>
        let w1 := mark task_id "running" None w in
        match parse_step env (analysis_text env query) with
        | Ok v => db (store task_id "completed" v w1)
        | Raise e => db (mark task_id "failed" (Some (str_exc e)) w1)
        end
    end.
Proof.
  rewrite analyze_document_task_eq.
  destruct (SessionLocal_error env); [reflexivity|]. cbn zeta.
  destruct (parse_step env (analysis_text env query)) as [v|e]; cbn [snd].
  - cbn [db emit]. rewrite !store_db. cbn [db emit clock]. reflexivity.
  - cbn [db emit]. rewrite !(mark_db _ "failed"). cbn [db emit clock].
    reflexivity.
Qed.

(** ** The executor (celery_app.py), further *)

Lemma mark_trace task_id status msg w :
  trace (mark task_id status msg w)
  = (trace w ++ mark_events task_id status msg w)%list.
Proof.
  unfold mark, mark_events. destruct (db w !! task_id); [reflexivity|].
  rewrite app_nil_r. reflexivity.
Qed.

Lemma store_trace task_id status v w :
  trace (store task_id status v w)
  = (trace w ++ store_events task_id status v w)%list.
Proof.
  unfold store, store_events. destruct (db w !! task_id); [reflexivity|].
  rewrite app_nil_r. reflexivity.
Qed.

Lemma mark_rest task_id status msg w :
  users (mark task_id status msg w) = users w
  /\ fs (mark task_id status msg w) = fs w
  /\ queue (mark task_id status msg w) = queue w
  /\ clock (mark task_id status msg w) = clock w.
Proof. unfold mark. destruct (db w !! task_id); repeat split. Qed.

Lemma store_rest task_id status v w :
  users (store task_id status v w) = users w
  /\ fs (store task_id status v w) = fs w
  /\ queue (store task_id status v w) = queue w
  /\ clock (store task_id status v w) = clock w.
Proof. unfold store. destruct (db w !! task_id); repeat split. Qed.

(** The events a run appends to the trace. *)
Lemma run_trace env task_id file_path query user_id w :
  trace (celery_app.analyze_document_task env task_id file_path query
           user_id w).2
  = (trace w ++
     match SessionLocal_error env with
     | Some e => [failure_event task_id e]
     | None =>
         let w1 := mark task_id "running" None w in
         mark_events task_id "running" None w ++ [EvKickoff query] ++
         match parse_step env (analysis_text env query) with
         | Ok v => store_events task_id "completed" v w1 ++ [EvSessionClose]
         | Raise e =>
             mark_events task_id "failed" (Some (str_exc e)) w1 ++
             [failure_event task_id e; EvSessionClose]
         end
     end)%list.
Proof.
  rewrite analyze_document_task_eq.
  destruct (SessionLocal_error env); [reflexivity|]. cbn zeta.
  destruct (parse_step env (analysis_text env query)) as [v|e]; cbn [snd].
  - cbn [trace emit]. rewrite store_trace. cbn [trace emit].
    rewrite mark_trace. unfold store_events. cbn [db emit clock].
    rewrite <- !app_assoc. reflexivity.
  - cbn [trace emit]. rewrite (mark_trace _ "failed"). cbn [trace emit].
    rewrite mark_trace. unfold mark_events at 2. cbn [db emit clock].
    rewrite <- !app_assoc. reflexivity.
Qed.

Lemma run_rest env task_id file_path query user_id w :
  users (celery_app.analyze_document_task env task_id file_path query
           user_id w).2 = users w
  /\ fs (celery_app.analyze_document_task env task_id file_path query
           user_id w).2 = fs w
  /\ queue (celery_app.analyze_document_task env task_id file_path query
              user_id w).2 = queue w
  /\ clock (celery_app.analyze_document_task env task_id file_path query
              user_id w).2 = clock w.
Proof.
  rewrite analyze_document_task_eq.
  destruct (SessionLocal_error env); [repeat split|]. cbn zeta.
  destruct (mark_rest task_id "running" None w) as [Hu [Hf [Hq Hc]]].
  destruct (parse_step env (analysis_text env query)) as [v|e]; cbn [snd].
  - destruct (store_rest task_id "completed" v
                (emit (mark task_id "running" None w) (EvKickoff query)))
      as [Hu' [Hf' [Hq' Hc']]].
    cbn [users fs queue clock emit] in *. rewrite Hu', Hf', Hq', Hc'.
    repeat split; assumption.
  - destruct (mark_rest task_id "failed" (Some (str_exc e))
                (emit (mark task_id "running" None w) (EvKickoff query)))
      as [Hu' [Hf' [Hq' Hc']]].
    cbn [users fs queue clock emit] in *. rewrite Hu', Hf', Hq', Hc'.
    repeat split; assumption.
Qed.

(** The identity of a row: what no update writes. *)
Lemma status_row_identity a status msg now :
  id (status_row a status msg now) = id a
  /\ AnalysisResult.user_id (status_row a status msg now)
     = AnalysisResult.user_id a
  /\ filename (status_row a status msg now) = filename a
  /\ created_at (status_row a status msg now) = created_at a.
Proof.
  unfold status_row.
  destruct (truthy msg), (String.eqb status "completed"); repeat split.
Qed.

Lemma mark_lookup task_id status msg w k :
  keyed (db w) ->
  db (mark task_id status msg w) !! k
  = if decide (k = task_id)
    then (fun a => status_row a status msg (clock w)) <$> db w !! task_id
    else db w !! k.
Proof.
  intros Hk. rewrite mark_db.
  destruct (db w !! task_id) as [a|] eqn:Ha.
  - rewrite (Hk _ _ Ha). destruct (decide (k = task_id)) as [->|Hne].
    + rewrite lookup_insert_eq. reflexivity.
    + rewrite lookup_insert_ne by congruence. reflexivity.
  - destruct (decide (k = task_id)) as [->|Hne]; [exact Ha|reflexivity].
Qed.

Lemma store_lookup task_id status v w k :
  keyed (db w) ->
  db (store task_id status v w) !! k
  = if decide (k = task_id)
    then (fun a => result_row a status v (clock w)) <$> db w !! task_id
    else db w !! k.
Proof.
  intros Hk. rewrite store_db.
  destruct (db w !! task_id) as [a|] eqn:Ha.
  - rewrite (Hk _ _ Ha). destruct (decide (k = task_id)) as [->|Hne].
    + rewrite lookup_insert_eq. reflexivity.
    + rewrite lookup_insert_ne by congruence. reflexivity.
  - destruct (decide (k = task_id)) as [->|Hne]; [exact Ha|reflexivity].
Qed.

(** X10. A run of the executor for one job touches that job's row only:
    every other row reads as before, no row is created or deleted, the
    users table and the queue are unchanged, and in the job's own row the
    identifier, the owner, the filename and created_at are never written. *)
Theorem X10_run_touches_one_row :
  forall (env : Env) (task_id file_path query : string) (user_id : option Z)
         (w : World),
    keyed (db w) ->
    (forall k, k <> task_id ->
       db (celery_app.analyze_document_task env task_id file_path query
             user_id w).2 !! k = db w !! k)
    /\ match db w !! task_id with
       | Some a =>
           exists a',
             db (celery_app.analyze_document_task env task_id file_path query
                   user_id w).2 !! task_id = Some a'
             /\ id a' = id a
             /\ AnalysisResult.user_id a' = AnalysisResult.user_id a
             /\ filename a' = filename a
             /\ created_at a' = created_at a
       | None =>
           db (celery_app.analyze_document_task env task_id file_path query
                 user_id w).2 !! task_id = None
       end
    /\ users (celery_app.analyze_document_task env task_id file_path query
                user_id w).2 = users w
    /\ queue (celery_app.analyze_document_task env task_id file_path query
                user_id w).2 = queue w.
Proof.
  intros env task_id file_path query user_id w Hk.
  split; [|split;
    [|destruct (run_rest env task_id file_path query user_id w)
        as [Hu [_ [Hq _]]]; split; assumption]].
  - intros k Hne. rewrite run_db.
    destruct (SessionLocal_error env); [reflexivity|]. cbn zeta.
    pose proof (mark_keyed task_id "running" None w Hk) as Hk1.
    destruct (parse_step env (analysis_text env query)) as [v|e].
    + rewrite (store_lookup _ _ _ _ _ Hk1), decide_False by exact Hne.
      rewrite (mark_lookup _ _ _ _ _ Hk), decide_False by exact Hne.
      reflexivity.
    + rewrite (mark_lookup _ _ _ _ _ Hk1), decide_False by exact Hne.
      rewrite (mark_lookup _ _ _ _ _ Hk), decide_False by exact Hne.
      reflexivity.
  - rewrite run_db.
    destruct (SessionLocal_error env) as [e0|].
    { destruct (db w !! task_id) as [a|] eqn:Ha; [|reflexivity].
      exists a. repeat split. }
    cbn zeta.
    pose proof (mark_keyed task_id "running" None w Hk) as Hk1.
    destruct (parse_step env (analysis_text env query)) as [v|e].
    + rewrite (store_lookup _ _ _ _ _ Hk1), decide_True by reflexivity.
      rewrite (mark_lookup _ _ _ _ _ Hk), decide_True by reflexivity.
      destruct (db w !! task_id) as [a|]; [|reflexivity].
      eexists. split; [reflexivity|]. repeat split.
    + rewrite (mark_lookup _ _ _ _ _ Hk1), decide_True by reflexivity.
      rewrite (mark_lookup _ _ _ _ _ Hk), decide_True by reflexivity.
      destruct (db w !! task_id) as [a|]; [|reflexivity].
      eexists. split; [reflexivity|]. cbn [fmap option_fmap option_map].
      destruct (status_row_identity (status_row a "running" None (clock w))
                  "failed" (Some (str_exc e))
                  (clock (mark task_id "running" None w)))
        as [H1 [H2 [H3 H4]]].
      rewrite H1, H2, H3, H4. repeat split.
Qed.

Lemma demo_world_keyed rows now : keyed (db (Demo.world rows now)).
Proof.
  intros k a H. cbn [Demo.world db] in H.
  apply elem_of_list_to_map_2, list_elem_of_In, in_map_iff in H
    as [a0 [[= <- <-] _]].
  reflexivity.
Qed.

Lemma X10_witness :
  db (celery_app.analyze_document_task (Demo.env (fun _ => Ok "null")) "t1"
        "data/financial_document_t1.pdf" "Analyze this" None
        (Demo.world [Demo.pending; Demo.row "t2" "pending" JNull None None]
                    5000)).2 !! "t2"
  = Some (Demo.row "t2" "pending" JNull None None).
Proof.
  destruct (X10_run_touches_one_row (Demo.env (fun _ => Ok "null")) "t1"
              "data/financial_document_t1.pdf" "Analyze this" None
              (Demo.world [Demo.pending;
                           Demo.row "t2" "pending" JNull None None] 5000)
              (demo_world_keyed _ _)) as [Hother _].
  rewrite (Hother "t2") by discriminate. reflexivity.
Defined.

(** X11. What one run of the task does, whatever the collaborators do. If
    the session opens, the run calls the collaborator exactly once, commits
    at most twice, sends at most one FAILURE state, and closes the session
    exactly once, as the last thing it does. If the session cannot be
    opened, the run writes nothing, does not call the collaborator, sends
    FAILURE with the error and raises it. *)
Theorem X11_effects_of_a_run :
  forall (env : Env) (task_id file_path query : string) (user_id : option Z)
         (w : World),
    exists evs,
      trace (celery_app.analyze_document_task env task_id file_path query
               user_id w).2 = (trace w ++ evs)%list
      /\ match SessionLocal_error env with
         | None =>
             count is_kickoff evs = 1%nat
             /\ (count is_commit evs <= 2)%nat
             /\ (count is_update_state evs <= 1)%nat
             /\ count is_close evs = 1%nat
             /\ last evs = Some EvSessionClose
         | Some e =>
             evs = [failure_event task_id e]
             /\ celery_app.analyze_document_task env task_id file_path query
                  user_id w
                = (Raise e, emit w (failure_event task_id e))
         end.
Proof.
  intros env task_id file_path query user_id w.
  eexists. split; [apply run_trace|].
  rewrite analyze_document_task_eq.
  destruct (SessionLocal_error env) as [e0|]; [split; reflexivity|].
  cbn zeta. unfold mark_events, store_events.
  destruct (db w !! task_id) as [a|];
    destruct (parse_step env (analysis_text env query)) as [v|e];
    destruct (db (mark task_id "running" None w) !! task_id) as [a1|];
    cbn; repeat split; lia.
Qed.

(** X12. The two failure channels agree. The task raises exactly when it
    has sent a FAILURE state to the queue; the FAILURE state carries the
    message of the exception raised and the job identifier, and no commit
    follows it. When the session is open and the job has a row, the row is
    written before the queue is told: the last event before the FAILURE
    state is the commit of the failed row, and that row, with status
    "failed", is what the store holds for the job afterwards. A task that
    returns has sent no FAILURE and returns the "completed" dictionary for
    its job. *)
Theorem X12_failure_channels_agree :
  forall (env : Env) (task_id file_path query : string) (user_id : option Z)
         (w : World),
    exists evs,
      trace (celery_app.analyze_document_task env task_id file_path query
               user_id w).2 = (trace w ++ evs)%list
      /\ (forall e,
            (celery_app.analyze_document_task env task_id file_path query
               user_id w).1 = Raise e ->
            exists pre post,
              evs = (pre ++ failure_event task_id e :: post)%list
              /\ count is_update_state pre = 0%nat
              /\ count is_update_state post = 0%nat
              /\ count is_commit post = 0%nat
              /\ (SessionLocal_error env = None ->
                  forall a, db w !! task_id = Some a -> id a = task_id ->
                    last pre = Some (EvCommit (failed_row a e (clock w)))
                    /\ In (EvCommit (failed_row a e (clock w))) pre
                    /\ status (failed_row a e (clock w)) = "failed"
                    /\ db (celery_app.analyze_document_task env task_id
                             file_path query user_id w).2 !! task_id
                       = Some (failed_row a e (clock w))))
      /\ (forall r,
            (celery_app.analyze_document_task env task_id file_path query
               user_id w).1 = Ok r ->
            count is_update_state evs = 0%nat
            /\ exists v, r = task_return task_id v).
Proof.
  intros env task_id file_path query user_id w.
  eexists. split; [apply run_trace|].
  destruct (SessionLocal_error env) as [e0|] eqn:Hs.
  { rewrite analyze_document_task_eq, Hs. split.
    - intros e [= <-]. exists [], [].
      do 4 (split; [reflexivity|]). intros H. discriminate H.
    - intros r [=]. }
  destruct (parse_step env (analysis_text env query)) as [v|e0] eqn:Hp.
  - rewrite analyze_document_task_eq, Hs. cbn zeta. rewrite Hp. cbn [fst].
    split; [intros e [=]|]. intros r [= <-]. split; [|eauto].
    unfold mark_events, store_events.
    destruct (db w !! task_id),
      (db (mark task_id "running" None w) !! task_id); reflexivity.
  - split.
    2:{ rewrite analyze_document_task_eq, Hs. cbn zeta. rewrite Hp.
        intros r [=]. }
    intros e He.
    assert (He0 : e = e0).
    { rewrite analyze_document_task_eq, Hs in He. cbn zeta in He.
      rewrite Hp in He. cbn [fst] in He. congruence. }
    subst e0.
    exists (mark_events task_id "running" None w ++ [EvKickoff query] ++
            mark_events task_id "failed" (Some (str_exc e))
              (mark task_id "running" None w))%list, [EvSessionClose].
    split; [rewrite <- !app_assoc; reflexivity|].
    split; [|split; [|split]].
    + unfold mark_events.
      destruct (db w !! task_id),
        (db (mark task_id "running" None w) !! task_id); reflexivity.
    + reflexivity.
    + reflexivity.
    + intros _ a Ha Hid. subst task_id.
      pose proof (parse_failure_marks_failed env file_path query user_id Hs
                    w a e Ha Hp) as [_ [Hdb [Hst _]]].
      assert (Hrunning : db (mark (id a) "running" None w) !! id a
                         = Some (running_row a)).
      { rewrite mark_db, Ha. autorewrite with row.
        rewrite lookup_insert_eq. reflexivity. }
      assert (Hclock : clock (mark (id a) "running" None w) = clock w)
        by apply mark_rest.
      unfold mark_events. rewrite Ha, Hrunning, Hclock.
      fold (failed_row a e (clock w)).
      split; [reflexivity|]. split; [|split; [exact Hst|exact Hdb]].
      cbn. right. right. left. reflexivity.
Qed.

Lemma X12_witness :
  exists pre post,
    trace Demo.failed_run
    = (pre ++ failure_event "t1"
                (Exception "maximum recursion depth exceeded while decoding a JSON array from a unicode string")
           :: post)%list
    /\ last pre
       = Some (EvCommit
                 (failed_row Demo.pending
                    (Exception "maximum recursion depth exceeded while decoding a JSON array from a unicode string")
                    5000)).
Proof.
  destruct (X12_failure_channels_agree Demo.deep_env "t1"
              "data/financial_document_t1.pdf" "Analyze this" None
              (Demo.world [Demo.pending] 5000))
    as [evs [Htrace [Hraise _]]].
  destruct (Hraise _ eq_refl) as [pre [post [Hevs [_ [_ [_ Hrow]]]]]].
  destruct (Hrow eq_refl Demo.pending eq_refl eq_refl) as [Hlast _].
  exists pre, post. split; [|exact Hlast].
  unfold Demo.failed_run. rewrite <- Hevs. exact Htrace.
Defined.

(** X13. Output that is not JSON does not fail the job: when [json.loads]
    rejects the collaborator's text with a JSONDecodeError, the job is
    completed with the dictionary {"raw_analysis": text} as its result,
    and that is also the result the task returns. *)
Theorem X13_plain_text_is_wrapped :
  forall (env : Env) (file_path query : string) (user_id : option Z)
         (w : World) (a : AnalysisResult.t) (text msg : string),
    SessionLocal_error env = None ->
    db w !! id a = Some a ->
    kickoff env query = Ok text ->
    json_loads env text = Raise (JSONDecodeError msg) ->
    (celery_app.analyze_document_task env (id a) file_path query user_id w).1
    = Ok (task_return (id a) (JObj [("raw_analysis", JStr text)]))
    /\ exists a',
        db (celery_app.analyze_document_task env (id a) file_path query
              user_id w).2 !! id a = Some a'
        /\ status a' = "completed"
        /\ result_json a' = JObj [("raw_analysis", JStr text)]
        /\ completed_at a' = Some (clock w).
Proof.
  intros env file_path query user_id w a text msg Hs Ha Hk Hl.
  rewrite (run_on_row env file_path query user_id Hs w a Ha).
  unfold analysis_text, parse_step. rewrite Hk, Hl.
  world_fields. rewrite lookup_insert_eq.
  split; [reflexivity|]. eexists. split; [reflexivity|]. repeat split.
Qed.

Lemma X13_witness :
  (celery_app.analyze_document_task
     (Demo.env (fun _ => Ok "Revenue grew; margins are stable.")) "t1"
     "data/financial_document_t1.pdf" "Analyze this" None
     (Demo.world [Demo.pending] 5000)).1
  = Ok (task_return "t1"
          (JObj [("raw_analysis", JStr "Revenue grew; margins are stable.")])).
Proof.
  destruct (X13_plain_text_is_wrapped
              (Demo.env (fun _ => Ok "Revenue grew; margins are stable."))
              "data/financial_document_t1.pdf" "Analyze this" None
              (Demo.world [Demo.pending] 5000) Demo.pending
              "Revenue grew; margins are stable."
              "Expecting value: line 1 column 1 (char 0)"
              eq_refl eq_refl eq_refl eq_refl) as [H _].
  exact H.
Defined.

(** ** From submission to result *)

(** The world an accepted submission leaves. *)
Lemma submit_accepted_world env file_id file query email w :
  main.is_pdf (upload_filename file) = true ->
  file_write_error env (upload_path file_id) = None ->
  apply_async_error env = None ->
  db w !! file_id = None ->
  exists user us,
    main.submit_analysis env file_id file query email w
    = (Ok (submitted_response file_id),
       mk_World (<[file_id := submitted_row file_id file user (clock w)]> (db w))
                us
                (<[upload_path file_id := upload_content file]> (fs w))
                (queue w ++ [submitted_message file_id query user])
                (clock w)
                (trace w ++ [EvCommit (submitted_row file_id file user
                                         (clock w))])).
Proof.
  intros Hpdf Hwrite Hasync Hfresh.
  rewrite submit_analysis_eq, Hpdf, Hwrite, Hasync. cbn zeta.
  set (w1 := set_fs w _).
  destruct (owner_fields email w1) as [Hdb [Hfs [Hq [Hclock Htrace]]]].
  rewrite Hdb. change (db w1) with (db w). rewrite Hfresh.
  exists (owner email w1).1, (users (owner email w1).2).
  unfold committed, emit, set_db, set_queue. world_fields.
  rewrite Hdb, Hfs, Hq, Hclock, Htrace. reflexivity.
Qed.

(** X14. From submission to result: after an accepted submission, when a
    worker runs the queued message and the collaborator's output parses to
    a JSON object [v], the status query answers completed with progress
    100 and the result query returns the record of the submitted job with
    exactly [v] as result, the uploaded filename, no error, and both
    timestamps set. *)
Theorem X14_submit_run_query :
  forall (env : Env) (file_id : string) (file : UploadFile) (query : string)
         (email : option string) (w : World) (v : json),
    main.is_pdf (upload_filename file) = true ->
    file_write_error env (upload_path file_id) = None ->
    apply_async_error env = None ->
    db w !! file_id = None ->
    SessionLocal_error env = None ->
    parse_step env (analysis_text env (normalized_query query)) = Ok v ->
    schemas.optional_dict v = true ->
    exists m,
      queue (main.submit_analysis env file_id file query email w).2
      = (queue w ++ [m])%list
      /\ main.check_status file_id
           (run_message env m
              (main.submit_analysis env file_id file query email w).2).2
         = (Ok (schemas.mk_status file_id "completed" (Some 100)),
            (run_message env m
               (main.submit_analysis env file_id file query email w).2).2)
      /\ exists r,
           main.get_analysis_result file_id
             (run_message env m
                (main.submit_analysis env file_id file query email w).2).2
           = (Ok r,
              (run_message env m
                 (main.submit_analysis env file_id file query email w).2).2)
           /\ schemas.r_id r = file_id
           /\ schemas.r_status r = "completed"
           /\ schemas.r_result r = v
           /\ schemas.r_error r = None
           /\ schemas.r_filename r = default EmptyString (upload_filename file)
           /\ schemas.r_user_id r = q_user_id m
           /\ schemas.r_created_at r = clock w
           /\ schemas.r_completed_at r = Some (clock w).
Proof.
  intros env file_id file query email w v Hpdf Hwrite Hasync Hfresh Hs Hp Hv.
  destruct (submit_accepted_world env file_id file query email w
              Hpdf Hwrite Hasync Hfresh) as [user [us ->]].
  exists (submitted_message file_id query user). cbn [snd queue].
  split; [reflexivity|].
  set (row := submitted_row file_id file user (clock w)).
  set (w1 := mk_World _ _ _ _ _ _).
  assert (Hrow : db w1 !! id row = Some row) by apply lookup_insert_eq.
  pose proof (run_on_row env (upload_path file_id) (normalized_query query)
                (main.user_id_of user) Hs w1 row Hrow) as Hrun.
  unfold run_message. cbn [submitted_message q_task_id q_file_path q_query
                           q_user_id].
  change (id row) with file_id in Hrun.
  rewrite Hrun, Hp. cbn [snd].
  split.
  - run_handler. world_fields. rewrite lookup_insert_eq. reflexivity.
  - eexists. split.
    + run_handler. world_fields. rewrite lookup_insert_eq.
      cbn [status completed_row result_row running_row with_status
           with_result_json with_completed_at String.eqb Ascii.eqb Bool.eqb
           orb].
      unfold schemas.AnalysisResultResponse.
      cbn [result_json completed_row result_row running_row with_status
           with_result_json with_completed_at].
      rewrite Hv. reflexivity.
    + repeat split.
Qed.

Lemma X14_witness :
  exists m r,
    queue (main.submit_analysis
             (Demo.env (fun _ => Ok (Demo.dumps Demo.buy))) "t1"
             (mk_UploadFile (Some "report.pdf") "%PDF-1.7") "Analyze this"
             None (Demo.world [] 7)).2 = [m]
    /\ (main.get_analysis_result "t1"
          (run_message (Demo.env (fun _ => Ok (Demo.dumps Demo.buy))) m
             (main.submit_analysis
                (Demo.env (fun _ => Ok (Demo.dumps Demo.buy))) "t1"
                (mk_UploadFile (Some "report.pdf") "%PDF-1.7") "Analyze this"
                None (Demo.world [] 7)).2).2).1 = Ok r
    /\ schemas.r_result r = Demo.buy.
Proof.
  destruct (X14_submit_run_query
              (Demo.env (fun _ => Ok (Demo.dumps Demo.buy))) "t1"
              (mk_UploadFile (Some "report.pdf") "%PDF-1.7") "Analyze this"
              None (Demo.world [] 7) Demo.buy
              eq_refl eq_refl eq_refl eq_refl eq_refl eq_refl eq_refl)
    as [m [Hq [_ [r [Hget [_ [_ [Hres _]]]]]]]].
  exists m, r. split; [exact Hq|]. split; [rewrite Hget; reflexivity|exact Hres].
Defined.

(** X15. A failure is visible to the caller: after a run in which a step
    raised [e] with a non-empty message, the task has raised [e], the
    status query answers failed with progress 0, and the result query
    answers 400 with "Analysis failed: " followed by the message. *)
Theorem X15_failed_run_is_reported :
  forall (env : Env) (file_path query : string) (user_id : option Z)
         (w : World) (a : AnalysisResult.t) (e : exc),
    SessionLocal_error env = None ->
    db w !! id a = Some a ->
    parse_step env (analysis_text env query) = Raise e ->
    str_exc e <> EmptyString ->
    (celery_app.analyze_document_task env (id a) file_path query user_id w).1
    = Raise e
    /\ main.check_status (id a)
         (celery_app.analyze_document_task env (id a) file_path query
            user_id w).2
       = (Ok (schemas.mk_status (id a) "failed" (Some 0)),
          (celery_app.analyze_document_task env (id a) file_path query
             user_id w).2)
    /\ main.get_analysis_result (id a)
         (celery_app.analyze_document_task env (id a) file_path query
            user_id w).2
       = (Raise (HTTPException 400 ("Analysis failed: " +:+ str_exc e)),
          (celery_app.analyze_document_task env (id a) file_path query
             user_id w).2).
Proof.
  intros env file_path query user_id w a e Hs Ha Hp Hne.
  rewrite (run_on_row env file_path query user_id Hs w a Ha), Hp.
  cbn [fst snd]. split; [reflexivity|].
  assert (Hst : status (failed_row a e (clock w)) = "failed")
    by apply status_status_row.
  assert (Herr : error_message (failed_row a e (clock w)) = Some (str_exc e)).
  { unfold failed_row. rewrite error_message_status_row.
    destruct (str_exc e); [congruence|reflexivity]. }
  split; run_handler; world_fields; rewrite lookup_insert_eq, Hst.
  - reflexivity.
  - cbn [String.eqb Ascii.eqb Bool.eqb orb]. rewrite Herr. reflexivity.
Qed.

Lemma X15_witness :
  main.get_analysis_result "t1" Demo.failed_run
  = (Raise (HTTPException 400
       "Analysis failed: maximum recursion depth exceeded while decoding a JSON array from a unicode string"),
     Demo.failed_run).
Proof.
  destruct (X15_failed_run_is_reported Demo.deep_env
              "data/financial_document_t1.pdf" "Analyze this" None
              (Demo.world [Demo.pending] 5000) Demo.pending
              (Exception "maximum recursion depth exceeded while decoding a JSON array from a unicode string"))
    as [_ [_ H]].
  - reflexivity.
  - reflexivity.
  - vm_compute. reflexivity.
  - discriminate.
  - exact H.
Defined.

(** ** Queries (main.py), further *)

(** X16. The two query handlers are pure reads: whatever they answer, an
    error included, the world after the call is the world before it. *)
Theorem X16_queries_change_nothing :
  forall (task_id : string) (w : World),
    (main.check_status task_id w).2 = w
    /\ (main.get_analysis_result task_id w).2 = w.
Proof.
  intros task_id w. split; run_handler.
  - destruct (db w !! task_id) as [a|]; [|reflexivity].
    unfold schemas.AnalysisStatusResponse.
    destruct (negb (schemas.status_pattern (status a))); [reflexivity|].
    match goal with |- context [if ?b then _ else _] => destruct b end;
      reflexivity.
  - destruct (db w !! task_id) as [a|]; [|reflexivity].
    destruct (String.eqb (status a) "pending" || String.eqb (status a) "running");
      [reflexivity|].
    destruct (String.eqb (status a) "failed"); [reflexivity|].
    unfold schemas.AnalysisResultResponse.
    destruct (schemas.optional_dict (result_json a)); reflexivity.
Qed.

(** X17. The result query never returns data of an unfinished or failed
    job, nor of another row: whenever it returns a record, that record is,
    field by field, the row stored under the identifier asked for, the
    row's status is none of pending, running and failed, and its result is
    a JSON object or null. *)
Theorem X17_result_only_from_finished_row :
  forall (task_id : string) (w : World) (r : schemas.AnalysisResultResponse_t),
    (main.get_analysis_result task_id w).1 = Ok r ->
    exists a,
      db w !! task_id = Some a
      /\ r = schemas.mk_result (id a) (AnalysisResult.user_id a) (filename a)
               (status a) (result_json a) (error_message a) (created_at a)
               (completed_at a)
      /\ status a <> "pending" /\ status a <> "running"
      /\ status a <> "failed"
      /\ schemas.optional_dict (result_json a) = true.
Proof.
  intros task_id w r. run_handler.
  destruct (db w !! task_id) as [a|]; [|discriminate].
  destruct (String.eqb (status a) "pending") eqn:Hp; [discriminate|].
  destruct (String.eqb (status a) "running") eqn:Hr; [discriminate|].
  destruct (String.eqb (status a) "failed") eqn:Hf; [discriminate|].
  cbn [orb]. unfold schemas.AnalysisResultResponse.
  destruct (schemas.optional_dict (result_json a)) eqn:Hd; [|discriminate].
  cbn [fst]. intros [= <-]. exists a.
  apply String.eqb_neq in Hp, Hr, Hf. repeat split; assumption.
Qed.

Lemma X17_witness :
  exists a,
    db (Demo.world [Demo.completed] 6000) !! "t1" = Some a
    /\ status a = "completed" /\ result_json a = Demo.buy.
Proof.
  destruct (X17_result_only_from_finished_row "t1"
              (Demo.world [Demo.completed] 6000)
              (schemas.mk_result "t1" None "report.pdf" "completed" Demo.buy
                 None 1000 (Some 5000)) eq_refl)
    as [a [Ha [Hr _]]].
  exists a. split; [exact Ha|].
  injection Hr as _ _ _ Hst Hres _ _ _. split; congruence.
Defined.

(** ** The retention sweeper (crud.py), further *)

Lemma sweep_lookup days w k :
  sweepable days (clock w) ->
  db (crud.delete_old_analyses days w).2 !! k
  = match db w !! k with
    | Some a =>
        if crud.expired (clock w - crud.timedelta_days days) a
        then None else Some a
    | None => None
    end.
Proof.
  intros Hok. rewrite (delete_old_analyses_eq _ _ Hok). cbn [snd db set_db].
  rewrite map_lookup_filter. destruct (db w !! k) as [a|]; [|reflexivity].
  cbn. destruct (crud.expired _ a).
  - rewrite option_guard_False by (intros H; apply H; reflexivity).
    reflexivity.
  - rewrite option_guard_True by discriminate. reflexivity.
Qed.

Lemma world_ext w w' :
  db w = db w' -> users w = users w' -> fs w = fs w' -> queue w = queue w' ->
  clock w = clock w' -> trace w = trace w' -> w = w'.
Proof. destruct w, w'. cbn. intros -> -> -> -> -> ->. reflexivity. Qed.

Lemma sweep_count days w :
  sweepable days (clock w) ->
  exists n,
    (crud.delete_old_analyses days w).1 = Ok n
    /\ 0 <= n
    /\ Z.of_nat (size (db w))
       = n + Z.of_nat (size (db (crud.delete_old_analyses days w).2)).
Proof.
  intros Hok. rewrite (delete_old_analyses_eq _ _ Hok).
  cbn [fst snd db set_db].
  eexists. split; [reflexivity|]. split; [lia|].
  set (P := fun kv : string * AnalysisResult.t => crud.expired _ kv.2 = true).
  rewrite <- (map_filter_union_complement P (db w)) at 1.
  rewrite map_size_disj_union by apply map_disjoint_filter_complement.
  rewrite Nat2Z.inj_add. reflexivity.
Qed.

Lemma sweep_clock days w :
  clock (crud.delete_old_analyses days w).2 = clock w.
Proof.
  unfold crud.delete_old_analyses, bind, utcnow, lift.
  destruct (datetime.timedelta days) as [delta|e]; [|reflexivity].
  destruct (datetime.sub (clock w) delta); reflexivity.
Qed.

Lemma sweepable_min d1 d2 now :
  sweepable d1 now -> sweepable d2 now -> sweepable (Z.min d1 d2) now.
Proof.
  intros H1 H2. destruct (Z.min_spec d1 d2) as [[_ ->]|[_ ->]]; assumption.
Qed.

Lemma expired_max c1 c2 a :
  crud.expired (Z.max c1 c2) a = crud.expired c1 a || crud.expired c2 a.
Proof.
  unfold crud.expired. destruct (completed_at a) as [t|]; [|reflexivity].
  destruct (Z.ltb_spec t c1), (Z.ltb_spec t c2), (Z.ltb_spec t (Z.max c1 c2));
    cbn; try reflexivity; lia.
Qed.

Lemma cutoff_min now d1 d2 :
  now - crud.timedelta_days (Z.min d1 d2)
  = Z.max (now - crud.timedelta_days d1) (now - crud.timedelta_days d2).
Proof. unfold crud.timedelta_days. lia. Qed.

(** X18. Sweeps compose: at one point in time, for two thresholds [d1] and
    [d2] that the date arithmetic accepts, sweeping with [d1] days and then
    with [d2] days leaves the same world as one sweep with the smaller
    threshold, and the two counts add up to the count of that one sweep. *)
Theorem X18_sweeps_compose :
  forall (d1 d2 : Z) (w : World),
    sweepable d1 (clock w) ->
    sweepable d2 (clock w) ->
    exists n1 n2 n,
      (crud.delete_old_analyses d1 w).1 = Ok n1
      /\ (crud.delete_old_analyses d2 (crud.delete_old_analyses d1 w).2).1
         = Ok n2
      /\ (crud.delete_old_analyses (Z.min d1 d2) w).1 = Ok n
      /\ n1 + n2 = n
      /\ (crud.delete_old_analyses d2 (crud.delete_old_analyses d1 w).2).2
         = (crud.delete_old_analyses (Z.min d1 d2) w).2.
Proof.
  intros d1 d2 w Hd1 Hd2.
  pose proof (sweepable_min _ _ _ Hd1 Hd2) as Hmin.
  pose proof (sweep_clock d1 w) as Hclock.
  assert (Hd2' : sweepable d2 (clock (crud.delete_old_analyses d1 w).2))
    by (rewrite Hclock; exact Hd2).
  assert (Hworld :
    (crud.delete_old_analyses d2 (crud.delete_old_analyses d1 w).2).2
    = (crud.delete_old_analyses (Z.min d1 d2) w).2).
  { apply world_ext;
      try (rewrite (delete_old_analyses_eq d2 _ Hd2'),
             (delete_old_analyses_eq d1 _ Hd1),
             (delete_old_analyses_eq _ _ Hmin); reflexivity).
    apply map_eq. intros k.
    rewrite (sweep_lookup _ _ _ Hd2'), (sweep_lookup _ _ _ Hd1),
      (sweep_lookup _ _ _ Hmin).
    rewrite Hclock, cutoff_min.
    destruct (db w !! k) as [a|]; [|reflexivity].
    rewrite expired_max.
    destruct (crud.expired (clock w - crud.timedelta_days d1) a);
      [reflexivity|].
    destruct (crud.expired (clock w - crud.timedelta_days d2) a);
      reflexivity. }
  destruct (sweep_count d1 w Hd1) as [n1 [H1 [_ Hs1]]].
  destruct (sweep_count d2 (crud.delete_old_analyses d1 w).2 Hd2')
    as [n2 [H2 [_ Hs2]]].
  destruct (sweep_count (Z.min d1 d2) w Hmin) as [n [H3 [_ Hs3]]].
  exists n1, n2, n. repeat split; try assumption.
  rewrite Hworld in Hs2. lia.
Qed.

Lemma X18_witness :
  (crud.delete_old_analyses 1
     (crud.delete_old_analyses 7
        (Demo.world Demo.sweep_rows (crud.timedelta_days 10))).2).2
  = (crud.delete_old_analyses 1
       (Demo.world Demo.sweep_rows (crud.timedelta_days 10))).2.
Proof.
  destruct (X18_sweeps_compose 7 1
              (Demo.world Demo.sweep_rows (crud.timedelta_days 10))
              (sweepable_days_of_ten 7 ltac:(lia))
              (sweepable_days_of_ten 1 ltac:(lia)))
    as [n1 [n2 [n [_ [_ [_ [_ Hworld]]]]]]].
  exact Hworld.
Defined.

(** X19. A larger threshold keeps more: for two thresholds [d1 <= d2] that
    the date arithmetic accepts, every row that survives a sweep with [d1]
    days survives a sweep with [d2] days at the same time; and when [d1]
    is not negative, a row whose completed_at is not in the past survives
    the sweep. *)
Theorem X19_sweep_monotone :
  forall (d1 d2 : Z) (w : World),
    sweepable d1 (clock w) ->
    sweepable d2 (clock w) ->
    d1 <= d2 ->
    (forall k a,
        db (crud.delete_old_analyses d1 w).2 !! k = Some a ->
        db (crud.delete_old_analyses d2 w).2 !! k = Some a)
    /\ (0 <= d1 ->
        forall k a t,
          db w !! k = Some a -> completed_at a = Some t -> clock w <= t ->
          db (crud.delete_old_analyses d1 w).2 !! k = Some a).
Proof.
  intros d1 d2 w Hd1 Hd2 Hle. split.
  - intros k a H.
    rewrite (sweep_lookup _ _ _ Hd1) in H. rewrite (sweep_lookup _ _ _ Hd2).
    destruct (db w !! k) as [a0|]; [|discriminate].
    destruct (crud.expired (clock w - crud.timedelta_days d1) a0) eqn:He1;
      [discriminate|].
    injection H as ->.
    destruct (crud.expired (clock w - crud.timedelta_days d2) a) eqn:He2;
      [|reflexivity].
    apply expired_spec in He2 as [t [Ht Hlt]].
    assert (crud.expired (clock w - crud.timedelta_days d1) a = true).
    { apply expired_spec. exists t. split; [exact Ht|].
      unfold crud.timedelta_days in *. lia. }
    congruence.
  - intros Hpos k a t Ha Ht Hnow. rewrite (sweep_lookup _ _ _ Hd1), Ha.
    destruct (crud.expired (clock w - crud.timedelta_days d1) a) eqn:He;
      [|reflexivity].
    apply expired_spec in He as [t' [Ht' Hlt]].
    unfold crud.timedelta_days in Hlt. rewrite Ht in Ht'. injection Ht' as <-.
    lia.
Qed.

Lemma X19_witness :
  db (crud.delete_old_analyses 7
        (Demo.world Demo.sweep_rows (crud.timedelta_days 10))).2 !! "new-done"
  = Some (Demo.row "new-done" "completed" Demo.buy None
            (Some (crud.timedelta_days 9))).
Proof.
  destruct (X19_sweep_monotone 1 7
              (Demo.world Demo.sweep_rows (crud.timedelta_days 10))
              (sweepable_days_of_ten 1 ltac:(lia))
              (sweepable_days_of_ten 7 ltac:(lia))
              ltac:(lia)) as [Hmono _].
  apply Hmono. vm_compute. reflexivity.
Defined.

(** ** Document tools (tools.py) *)

Lemma append_assoc s t u : (s +:+ t) +:+ u = s +:+ (t +:+ u).
Proof.
  induction s as [|c s IH]; [reflexivity|].
  rewrite !append_cons, IH. reflexivity.
Qed.

Lemma append_nil_r s : s +:+ EmptyString = s.
Proof.
  induction s as [|c s IH]; [reflexivity|]. rewrite append_cons, IH.
  reflexivity.
Qed.

Lemma has_blank_line_cons c d s :
  tools.has_blank_line (String c (String d s))
  = (Ascii.eqb c tools.newline && Ascii.eqb d tools.newline)
    || tools.has_blank_line (String d s).
Proof. reflexivity. Qed.

Lemma replace_blank_lines_cons c d s :
  tools.replace_blank_lines (String c (String d s))
  = if Ascii.eqb c tools.newline && Ascii.eqb d tools.newline
    then String tools.newline (tools.replace_blank_lines s)
    else String c (tools.replace_blank_lines (String d s)).
Proof. reflexivity. Qed.

Lemma without_cons a c s :
  without a (String c s)
  = if Ascii.eqb c a then without a s else String c (without a s).
Proof. reflexivity. Qed.

Lemma replace_blank_lines_props n : forall s,
  (String.length s <= n)%nat ->
  (String.length (tools.replace_blank_lines s) <= String.length s)%nat
  /\ (tools.has_blank_line s = true ->
      (String.length (tools.replace_blank_lines s) < String.length s)%nat)
  /\ without tools.newline (tools.replace_blank_lines s)
     = without tools.newline s.
Proof.
  induction n as [|n IH]; intros s Hn.
  - destruct s; [|simpl in Hn; lia].
    split; [simpl; lia|split; [discriminate|reflexivity]].
  - destruct s as [|c [|d s'']].
    + split; [simpl; lia|split; [discriminate|reflexivity]].
    + split; [simpl; lia|split; [discriminate|reflexivity]].
    + cbn [String.length] in Hn.
      rewrite has_blank_line_cons, replace_blank_lines_cons.
      destruct (Ascii.eqb c tools.newline && Ascii.eqb d tools.newline)
        eqn:Hcd; cbn [orb].
      * apply andb_true_iff in Hcd as [Hc Hd].
        destruct (IH s'' ltac:(lia)) as [Hle [_ Hw]].
        cbn [String.length]. split; [lia|]. split; [lia|].
        rewrite !without_cons, Hc, Hd.
        change (Ascii.eqb tools.newline tools.newline) with true.
        cbn iota. exact Hw.
      * destruct (IH (String d s'') ltac:(cbn [String.length]; lia))
          as [Hle [Hlt Hw]].
        cbn [String.length] in *. split; [lia|].
        split; [intros H; specialize (Hlt H); lia|].
        rewrite (without_cons _ c (String d s'')),
          (without_cons _ c (tools.replace_blank_lines _)), Hw.
        reflexivity.
Qed.

Lemma clean_page_more fuel : forall content r,
  tools.clean_page fuel content = Some r ->
  tools.clean_page (S fuel) content = Some r.
Proof.
  induction fuel as [|fuel IH]; intros content r H; [discriminate|].
  cbn [tools.clean_page] in H. change (tools.clean_page (S (S fuel)) content)
    with (if tools.has_blank_line content
          then tools.clean_page (S fuel) (tools.replace_blank_lines content)
          else Some content).
  destruct (tools.has_blank_line content); [apply IH|]; exact H.
Qed.

Lemma clean_page_mono fuel fuel' content r :
  (fuel <= fuel')%nat ->
  tools.clean_page fuel content = Some r ->
  tools.clean_page fuel' content = Some r.
Proof.
  induction 1 as [|m _ IH]; [tauto|].
  intros H. apply clean_page_more, IH, H.
Qed.

Lemma clean_page_terminates fuel : forall content,
  (String.length content < fuel)%nat ->
  exists r, tools.clean_page fuel content = Some r
    /\ tools.has_blank_line r = false
    /\ without tools.newline r = without tools.newline content
    /\ (String.length r <= String.length content)%nat
    /\ (tools.has_blank_line content = false -> r = content).
Proof.
  induction fuel as [|fuel IH]; intros content Hlen; [lia|].
  cbn [tools.clean_page].
  destruct (tools.has_blank_line content) eqn:Hb.
  - destruct (replace_blank_lines_props _ content (le_n _))
      as [_ [Hlt Hw]]. specialize (Hlt Hb).
    destruct (IH (tools.replace_blank_lines content) ltac:(lia))
      as (r & Hr & Hnb & Hwr & Hlr & _).
    exists r. repeat split; try assumption; try congruence; lia.
  - exists content. repeat split; try assumption; try reflexivity; lia.
Qed.

(** X20. The loop of [read_data_tool] that removes blank lines from a page
    ([while "\n\n" in content: content = content.replace("\n\n", "\n")])
    terminates on every page: one more iteration than the page has characters
    is enough, and further iterations change nothing.  The cleaned page holds
    no two consecutive newlines, holds the same characters other than newlines
    in the same order, is no longer than the page, and is the page itself when
    the page had no blank line. *)
Theorem X20_clean_page_terminates_without_blank_lines (content : string) :
  exists r,
    (forall fuel, (String.length content < fuel)%nat ->
                  tools.clean_page fuel content = Some r)
    /\ tools.has_blank_line r = false
    /\ without tools.newline r = without tools.newline content
    /\ (String.length r <= String.length content)%nat
    /\ (tools.has_blank_line content = false -> r = content)
    /\ (forall fuel, (0 < fuel)%nat -> tools.clean_page fuel r = Some r).
Proof.
  destruct (clean_page_terminates (S (String.length content)) content
              (Nat.lt_succ_diag_r _)) as (r & Hr & Hnb & Hw & Hl & Hid).
  exists r. split; [|repeat split; try assumption].
  - intros fuel Hf. apply (clean_page_mono (S (String.length content)));
      [lia|exact Hr].
  - intros [|fuel] Hf; [lia|]. cbn [tools.clean_page]. rewrite Hnb.
    reflexivity.
Qed.

Lemma joined_pages_cons page pages :
  joined_pages (page :: pages)
  = page +:+ String tools.newline EmptyString +:+ joined_pages pages.
Proof. reflexivity. Qed.

Lemma joined_pages_not_empty page pages :
  joined_pages (page :: pages) <> EmptyString.
Proof.
  rewrite joined_pages_cons. destruct page; [rewrite append_nil|];
    rewrite append_cons; discriminate.
Qed.

Lemma joined_pages_ends pages : forall page,
  exists x, joined_pages (page :: pages)
            = x +:+ String tools.newline EmptyString.
Proof.
  induction pages as [|page' pages IH]; intros page.
  - exists page. rewrite joined_pages_cons. cbn [joined_pages fold_right].
    rewrite append_nil_r. reflexivity.
  - destruct (IH page') as [x Hx].
    exists (page +:+ String tools.newline EmptyString +:+ x).
    rewrite joined_pages_cons, Hx, !append_assoc. reflexivity.
Qed.

Lemma joined_pages_not_message page pages :
  joined_pages (page :: pages) <> "No content found in PDF".
Proof.
  destruct (joined_pages_ends pages page) as [x ->]. intros H.
  assert (Hlen : String.length x = 22%nat).
  { apply (f_equal String.length) in H. rewrite length_app in H.
    cbn [String.length] in H. lia. }
  pose proof (append_correct2 x (String tools.newline EmptyString) 0) as Hget.
  rewrite H, Hlen in Hget. vm_compute in Hget. discriminate.
Qed.

Lemma cleaned_exists docs : exists pages, cleaned docs pages.
Proof.
  induction docs as [|page docs [pages IH]]; [exists []; constructor|].
  destruct (clean_page_terminates (S (String.length page)) page
              (Nat.lt_succ_diag_r _)) as (r & Hr & Hnb & Hw & _).
  exists (r :: pages). constructor; [|exact IH].
  split; [|split; assumption].
  intros fuel Hf. apply (clean_page_mono (S (String.length page)));
    [lia|exact Hr].
Qed.

Lemma report_pages_cleaned fuel docs pages :
  cleaned docs pages ->
  Forall (fun page => (String.length page < fuel)%nat) docs ->
  forall full_report,
    tools.report_pages fuel docs full_report
    = Some (full_report +:+ joined_pages pages).
Proof.
  induction 1 as [|page content docs pages [Hc _] _ IH]; intros Hlen acc.
  - cbn [tools.report_pages joined_pages fold_right].
    rewrite append_nil_r. reflexivity.
  - inversion Hlen as [|? ? Hp Hrest]; subst.
    cbn [tools.report_pages]. rewrite (Hc fuel Hp), (IH Hrest).
    rewrite joined_pages_cons, !append_assoc. reflexivity.
Qed.

(** X21. [read_data_tool] on a file that exists and loads: the report is the
    cleaned pages, each followed by one newline, in the order of the
    document; every cleaned page is free of blank lines and keeps the page's
    characters other than newlines.  "No content found in PDF" is returned
    exactly when the document has no page at all: a document whose pages are
    all empty yields a report of newlines, not that message. *)
Theorem X21_read_data_tool_report (fuel : nat) (env : tools.pdf_env)
    (path : string) (docs : list string)
    (Himport : tools.import_error env = None)
    (Hexists : tools.path_exists env path = true)
    (Hload : tools.load env path = Ok docs)
    (Hfuel : Forall (fun page => (String.length page < fuel)%nat) docs) :
  exists pages,
    cleaned docs pages
    /\ tools.read_data_tool fuel env path
       = Some (match docs with
               | [] => "No content found in PDF"
               | _ :: _ => joined_pages pages
               end)
    /\ (tools.read_data_tool fuel env path = Some "No content found in PDF"
        <-> docs = []).
Proof.
  destruct (cleaned_exists docs) as [pages Hpages].
  exists pages. split; [exact Hpages|].
  assert (Hrun : tools.read_data_tool fuel env path
                 = Some (match docs with
                         | [] => "No content found in PDF"
                         | _ :: _ => joined_pages pages
                         end)).
  { unfold tools.read_data_tool. rewrite Himport, Hexists, Hload.
    rewrite (report_pages_cleaned fuel docs pages Hpages Hfuel), append_nil.
    destruct Hpages as [|page content docs pages _ _]; [reflexivity|].
    pose proof (joined_pages_not_empty content pages) as Hne.
    destruct (joined_pages (content :: pages)); [contradiction|reflexivity]. }
  split; [exact Hrun|]. rewrite Hrun. split.
  - intros H. destruct Hpages as [|page content docs pages _ _];
      [reflexivity|].
    injection H as H. destruct (joined_pages_not_message _ _ H).
  - intros ->. reflexivity.
Qed.

Lemma X21_witness :
  exists pages,
    cleaned [sample_page; EmptyString] pages
    /\ tools.read_data_tool 6 sample_pdf "data/sample.pdf"
       = Some (joined_pages pages)
    /\ (tools.read_data_tool 6 sample_pdf "data/sample.pdf"
        = Some "No content found in PDF"
        <-> [sample_page; EmptyString] = []).
Proof.
  apply (X21_read_data_tool_report 6 sample_pdf "data/sample.pdf"
           [sample_page; EmptyString]); try reflexivity.
  repeat constructor.
Defined.

Lemma double_space_at s :
  String.eqb (tools.take_chars 2 s)
             (String tools.space (String tools.space EmptyString))
  = match s with
    | String c (String d _) =>
        Ascii.eqb c tools.space && Ascii.eqb d tools.space
    | _ => false
    end.
Proof.
  destruct s as [|c [|d r]]; [reflexivity| |];
    cbn [tools.take_chars String.eqb];
    destruct (Ascii.eqb c tools.space); try reflexivity.
  destruct (Ascii.eqb d tools.space); reflexivity.
Qed.

Lemma collapse_spaces_cons c s :
  collapse_spaces (String c s)
  = if String.eqb (tools.take_chars 2 (String c s))
                  (String tools.space (String tools.space EmptyString))
    then collapse_spaces s
    else String c (collapse_spaces s).
Proof. reflexivity. Qed.

Lemma take_chars_app pre rest :
  tools.take_chars (String.length pre) (pre +:+ rest) = pre.
Proof.
  induction pre as [|c pre IH].
  - rewrite append_nil. destruct rest; reflexivity.
  - rewrite append_cons. cbn [String.length tools.take_chars].
    rewrite IH. reflexivity.
Qed.

Lemma drop_chars_app pre rest :
  tools.drop_chars (String.length pre) (pre +:+ rest) = rest.
Proof.
  induction pre as [|c pre IH].
  - rewrite append_nil. destruct rest; reflexivity.
  - rewrite append_cons. cbn [String.length tools.drop_chars]. exact IH.
Qed.

Lemma drop_chars_next pre c rest :
  tools.drop_chars (S (String.length pre)) (pre +:+ String c rest) = rest.
Proof.
  change (S (String.length pre)) with (String.length (String c pre)).
  induction pre as [|d pre IH].
  - rewrite append_nil. cbn [String.length tools.drop_chars].
    destruct rest; reflexivity.
  - rewrite append_cons. cbn [String.length tools.drop_chars] in *.
    exact IH.
Qed.

Lemma remove_double_spaces_from rest : forall pre fuel,
  (String.length rest < fuel)%nat ->
  tools.remove_double_spaces fuel (String.length pre) (pre +:+ rest)
  = Some (pre +:+ collapse_spaces rest).
Proof.
  induction rest as [|c rest IH]; intros pre [|fuel] Hf;
    cbn [String.length] in Hf; try lia;
    cbn [tools.remove_double_spaces]; rewrite length_app;
    cbn [String.length].
  - rewrite Nat.add_0_r, Nat.ltb_irrefl. reflexivity.
  - replace (String.length pre <? String.length pre + S (String.length rest))%nat
      with true by (symmetry; apply Nat.ltb_lt; lia).
    rewrite drop_chars_app, take_chars_app, drop_chars_next,
      collapse_spaces_cons.
    destruct (String.eqb (tools.take_chars 2 (String c rest)) _).
    + apply IH. lia.
    + specialize (IH (pre +:+ String c EmptyString) fuel ltac:(lia)).
      rewrite length_app in IH. cbn [String.length] in IH.
      rewrite Nat.add_1_r, !append_assoc, append_cons, append_nil in IH.
      exact IH.
Qed.

Lemma collapse_spaces_first s :
  match collapse_spaces s, s with
  | String c _, String d _ => c = d
  | EmptyString, EmptyString => True
  | _, _ => False
  end.
Proof.
  induction s as [|c s IH]; [exact I|].
  rewrite collapse_spaces_cons, double_space_at.
  destruct s as [|d r]; [reflexivity|].
  destruct (Ascii.eqb c tools.space && Ascii.eqb d tools.space) eqn:Hcd;
    [|reflexivity].
  apply andb_true_iff in Hcd as [Hc Hd].
  apply Ascii.eqb_eq in Hc, Hd. subst c d.
  destruct (collapse_spaces (String tools.space r)); [contradiction|].
  exact IH.
Qed.

Lemma has_double_space_cons c d s :
  has_double_space (String c (String d s))
  = (Ascii.eqb c tools.space && Ascii.eqb d tools.space)
    || has_double_space (String d s).
Proof. reflexivity. Qed.

Lemma collapse_spaces_no_double s :
  has_double_space (collapse_spaces s) = false.
Proof.
  induction s as [|c s IH]; [reflexivity|].
  rewrite collapse_spaces_cons, double_space_at.
  pose proof (collapse_spaces_first s) as Hfirst.
  destruct s as [|d r]; [reflexivity|].
  destruct (Ascii.eqb c tools.space && Ascii.eqb d tools.space) eqn:Hcd;
    [exact IH|].
  destruct (collapse_spaces (String d r)) as [|d' r'] eqn:Hr;
    [reflexivity|]. subst d'.
  rewrite has_double_space_cons, Hcd, IH. reflexivity.
Qed.

Lemma collapse_spaces_keeps_text s :
  without tools.space (collapse_spaces s) = without tools.space s.
Proof.
  induction s as [|c s IH]; [reflexivity|].
  rewrite collapse_spaces_cons, double_space_at.
  destruct s as [|d r]; [reflexivity|].
  destruct (Ascii.eqb c tools.space && Ascii.eqb d tools.space) eqn:Hcd.
  - apply andb_true_iff in Hcd as [Hc _].
    rewrite (without_cons _ c), Hc. exact IH.
  - rewrite !(without_cons _ c), IH. reflexivity.
Qed.

Lemma collapse_spaces_fixed s :
  has_double_space s = false -> collapse_spaces s = s.
Proof.
  induction s as [|c s IH]; [reflexivity|].
  rewrite collapse_spaces_cons, double_space_at.
  destruct s as [|d r]; [reflexivity|].
  rewrite has_double_space_cons. intros H.
  apply orb_false_iff in H as [-> H]. rewrite (IH H). reflexivity.
Qed.

(** X22. The loop of [analyze_investment_tool] that removes double spaces
    terminates on every text, within one more iteration than the text has
    characters, and the tool then returns its fixed message.  The text the
    loop ends with has every run of spaces reduced to one space: it holds no
    two consecutive spaces, holds the same characters other than spaces in
    the same order, and is the text itself when that had no double space. *)
Theorem X22_analyze_investment_tool_terminates (data : string) (fuel : nat)
    (Hfuel : (String.length data < fuel)%nat) :
  tools.remove_double_spaces fuel 0 data = Some (collapse_spaces data)
  /\ tools.analyze_investment_tool fuel data
     = Some "Investment analysis completed successfully"
  /\ has_double_space (collapse_spaces data) = false
  /\ without tools.space (collapse_spaces data) = without tools.space data
  /\ (has_double_space data = false -> collapse_spaces data = data).
Proof.
  pose proof (remove_double_spaces_from data EmptyString fuel Hfuel) as Hrun.
  rewrite !append_nil in Hrun. cbn [String.length] in Hrun.
  split; [exact Hrun|]. split.
  - unfold tools.analyze_investment_tool. rewrite Hrun. reflexivity.
  - split; [apply collapse_spaces_no_double|].
    split; [apply collapse_spaces_keeps_text|apply collapse_spaces_fixed].
Qed.

Lemma X22_witness :
  tools.remove_double_spaces 12 0 "a   b  c d"
  = Some (collapse_spaces "a   b  c d")
  /\ tools.analyze_investment_tool 12 "a   b  c d"
     = Some "Investment analysis completed successfully"
  /\ has_double_space (collapse_spaces "a   b  c d") = false
  /\ without tools.space (collapse_spaces "a   b  c d")
     = without tools.space "a   b  c d"
  /\ (has_double_space "a   b  c d" = false
      -> collapse_spaces "a   b  c d" = "a   b  c d").
Proof.
  apply (X22_analyze_investment_tool_terminates "a   b  c d" 12).
  vm_compute. lia.
Defined.

(** X23. [read_data_tool] returns a string for every file system, loader
    and path: whatever the import, the existence test and the loader do,
    there is a number of iterations of the cleaning loop past which the tool
    returns, and it returns the same string for every larger number. *)
Theorem X23_read_data_tool_total (env : tools.pdf_env) (path : string) :
  exists (n : nat) (s : string),
    forall fuel, (n < fuel)%nat -> tools.read_data_tool fuel env path = Some s.
Proof.
  unfold tools.read_data_tool.
  destruct (tools.import_error env) as [e|];
    [exists 0%nat; eexists; reflexivity|].
  destruct (tools.path_exists env path);
    [|exists 0%nat; eexists; reflexivity].
  destruct (tools.load env path) as [docs|e];
    [|exists 0%nat; eexists; reflexivity].
  destruct (cleaned_exists docs) as [pages Hpages].
  assert (Hbound : exists n,
            Forall (fun page => (String.length page <= n)%nat) docs).
  { clear. induction docs as [|page docs [n IH]]; [exists 0%nat; constructor|].
    exists (Nat.max (String.length page) n). constructor; [lia|].
    eapply Forall_impl; [exact IH|]. cbn beta. intros; lia. }
  destruct Hbound as [n Hn]. exists n.
  exists (match joined_pages pages with
          | EmptyString => "No content found in PDF"
          | String _ _ => joined_pages pages
          end).
  intros fuel Hf.
  rewrite (report_pages_cleaned fuel docs pages Hpages).
  - rewrite append_nil. destruct (joined_pages pages); reflexivity.
  - eapply Forall_impl; [exact Hn|]. cbn beta. intros; lia.
Qed.

(** ** The repository's own test of the store (test_db_flow.py) *)

Lemma create_analysis_duplicate task_id filename user_id w a :
  db w !! task_id = Some a ->
  crud.create_analysis task_id filename user_id w
  = (Raise (Exception "UNIQUE constraint failed: analysis_results.id"), w).
Proof.
  intros Ha. unfold crud.create_analysis, bind, get_world.
  rewrite Ha. reflexivity.
Qed.

(** X24. [test_database_flow] passes on every store that does not yet hold
    the generated identifier: it returns True, leaves the row completed with
    the test's result and a completion time, closes each of its four
    sessions, and leaves every other row as it was.  On a store that already
    holds the identifier the first step raises, after closing its session,
    and the store is unchanged. *)
Theorem X24_test_database_flow_passes (task_id : string) (w : World) :
  (db w !! task_id = None ->
   (test_db_flow.test_database_flow task_id w).1 = Ok true
   /\ db (test_db_flow.test_database_flow task_id w).2 !! task_id
      = Some (AnalysisResult.mk task_id None "test_document.pdf" "completed"
                test_db_flow.result_json None (clock w) (Some (clock w)))
   /\ count is_close (trace (test_db_flow.test_database_flow task_id w).2)
      = (count is_close (trace w) + 4)%nat
   /\ forall k, k <> task_id ->
        db (test_db_flow.test_database_flow task_id w).2 !! k = db w !! k)
  /\ (forall a, db w !! task_id = Some a ->
      exists e, (test_db_flow.test_database_flow task_id w).1 = Raise e
        /\ db (test_db_flow.test_database_flow task_id w).2 = db w
        /\ count is_close (trace (test_db_flow.test_database_flow task_id w).2)
           = (count is_close (trace w) + 1)%nat).
Proof.
  split.
  - intros Hnone.
    unfold test_db_flow.test_database_flow, bind, try_finally,
      test_db_flow.close, modify.
    rewrite (create_analysis_pending _ _ _ _ Hnone).
    unfold crud.get_analysis, bind, get_world, ret, committed.
    cbn [db emit set_db AnalysisResult.id fst snd].
    rewrite lookup_insert_eq. cbn beta iota.
    rewrite update_analysis_result_eq. unfold store, committed.
    cbn [db emit set_db AnalysisResult.id fst snd].
    rewrite lookup_insert_eq.
    cbn [fmap option_fmap option_map db emit set_db AnalysisResult.id
         result_row AnalysisResult.with_status
         AnalysisResult.with_result_json AnalysisResult.with_completed_at
         AnalysisResult.status AnalysisResult.result_json clock fst snd].
    rewrite lookup_insert_eq.
    cbn [result_row AnalysisResult.with_status
         AnalysisResult.with_result_json AnalysisResult.with_completed_at
         AnalysisResult.status AnalysisResult.result_json].
    change (String.eqb "completed" "completed"
            && json_truthy test_db_flow.result_json) with true.
    cbn [fst snd db emit set_db trace clock].
    split; [reflexivity|]. split; [apply lookup_insert_eq|]. split.
    + unfold count. rewrite !List.filter_app, !List.length_app. cbn. lia.
    + intros k Hk. rewrite !lookup_insert_ne by congruence. reflexivity.
  - intros a Ha. eexists.
    unfold test_db_flow.test_database_flow, bind, try_finally,
      test_db_flow.close, modify.
    rewrite (create_analysis_duplicate _ _ _ _ _ Ha).
    cbn [fst snd db emit trace].
    split; [reflexivity|]. split; [reflexivity|].
    unfold count. rewrite List.filter_app, List.length_app. cbn. lia.
Qed.

Lemma X24_witness :
  (test_db_flow.test_database_flow "t9" (Demo.world [Demo.pending] 9)).1
  = Ok true.
Proof.
  destruct (X24_test_database_flow_passes "t9" (Demo.world [Demo.pending] 9))
    as [Hnew _].
  destruct (Hnew eq_refl) as [Hrun _]. exact Hrun.
Defined.
